(** * The streaming message reassembler of the WebSocket manager

    A shallow embedding of the class [WebSocketManager] of
    [frontend/src/app/components/websocketManager.jsx]: the fields of the
    manager are a record, every method is a function on that record, and the
    calls a method makes on its collaborators (the callbacks handed to
    [sendMessageAndWaitForResponse], the socket) are written to a log in the
    order the method makes them.  Exceptions are explicit: a computation either
    returns or throws, and [onmessage] is the [try]/[catch] around the
    handler.  A callback is taken to return normally and not to call back
    into the manager.  [console.log] calls are left out. *)

From Stdlib Require Import String Ascii List ZArith NArith Bool Lia.
From Stdlib Require Import DecimalString.
Import ListNotations.
Open Scope string_scope.
Set Warnings "-register-all".

(** ** Parsed payloads *)

(** What [JSON.parse] returns.  A number is kept as an integer: the handler
    never calculates with a number, it only tests whether one is zero or
    positive. *)
Inductive json : Type :=
| JNull
| JBool (b : bool)
| JNum (n : Z)
| JStr (s : string)
| JArr (items : list json)
| JObj (members : list (string * json)).

(** A JavaScript value read out of a payload: [None] is [undefined]. *)
Definition value : Type := option json.

(** The text of one socket message: [JSON.parse] throws on it, or yields a
    value. *)
Inductive payload : Type :=
| Unparseable
| Parsed (data : json).

(** Own property [key] of a parsed object; [JSON.parse] keeps the last of
    several members with one name. *)
Fixpoint member (key : string) (members : list (string * json)) : value :=
  match members with
  | [] => None
  | (k, v) :: rest =>
      match member key rest with
      | Some w => Some w
      | None => if String.eqb k key then Some v else None
      end
  end.

(** [Boolean(v)]. *)
Definition truthy (v : value) : bool :=
  match v with
  | None => false
  | Some JNull => false
  | Some (JBool b) => b
  | Some (JNum n) => negb (Z.eqb n 0)
  | Some (JStr s) => negb (String.eqb s "")
  | Some (JArr _) => true
  | Some (JObj _) => true
  end.

(** [v === s] for a string literal [s]. *)
Definition strictEq (v : value) (s : string) : bool :=
  match v with
  | Some (JStr t) => String.eqb t s
  | _ => false
  end.

(** The conversions JavaScript applies silently to an array or an object
    (and, in a comparison, to a string).  The handler reaches them only when a
    delta text is not a string; they are an interface here, and everything
    below holds for each of its instances. *)
Class Coercions : Type := {
  (** [v > 0]; [None] when the conversion throws a TypeError *)
  greaterThanZero : json -> option bool;
  (** the string [v] contributes to [s += v]; [None] when the conversion
      throws a TypeError *)
  toPrimitiveString : json -> option string
}.

(** An instance on which every such conversion throws; it serves to run the
    handler on frames that reach none. *)
Definition throwingCoercions : Coercions :=
  {| greaterThanZero := fun _ => None; toPrimitiveString := fun _ => None |}.

(** ** The manager and what it does to its collaborators *)

(** A function handed in by the caller, known by its identity only. *)
Definition Callback : Type := nat.

Inductive WebSocket : Type := Socket.

Record Packet : Type := mkPacket {
  action : string;
  message : json;
  messages : json;
  packetConversationId : string;
  userInfo : json
}.

(** One call made on a collaborator. *)
Inductive effect : Type :=
| CallMessage (f : Callback) (text : json) (isNewMessage : bool)
| CallInfo (f : Callback) (infoMessage : json)
| CallComplete (f : Callback)
| WsClose
| WsSend (packet : Packet).

Record WebSocketManager : Type := mkManager {
  ws : option WebSocket;
  isConnected : bool;
  isConnecting : bool;
  messageCallback : option Callback;
  infoCallback : option Callback;
  completionCallback : option Callback;
  currentMessage : string;
  hasContent : bool;
  shouldCreateNewMessage : bool;
  conversationId : option string
}.

(** The constructor. *)
Definition newManager : WebSocketManager :=
  {| ws := None; isConnected := false; isConnecting := false;
     messageCallback := None; infoCallback := None; completionCallback := None;
     currentMessage := ""; hasContent := false; shouldCreateNewMessage := false;
     conversationId := None |}.

Definition set_ws (x : option WebSocket) (m : WebSocketManager) :=
  mkManager x (isConnected m) (isConnecting m) (messageCallback m) (infoCallback m)
    (completionCallback m) (currentMessage m) (hasContent m)
    (shouldCreateNewMessage m) (conversationId m).
Definition set_isConnected (x : bool) (m : WebSocketManager) :=
  mkManager (ws m) x (isConnecting m) (messageCallback m) (infoCallback m)
    (completionCallback m) (currentMessage m) (hasContent m)
    (shouldCreateNewMessage m) (conversationId m).
Definition set_isConnecting (x : bool) (m : WebSocketManager) :=
  mkManager (ws m) (isConnected m) x (messageCallback m) (infoCallback m)
    (completionCallback m) (currentMessage m) (hasContent m)
    (shouldCreateNewMessage m) (conversationId m).
Definition set_messageCallback (x : option Callback) (m : WebSocketManager) :=
  mkManager (ws m) (isConnected m) (isConnecting m) x (infoCallback m)
    (completionCallback m) (currentMessage m) (hasContent m)
    (shouldCreateNewMessage m) (conversationId m).
Definition set_infoCallback (x : option Callback) (m : WebSocketManager) :=
  mkManager (ws m) (isConnected m) (isConnecting m) (messageCallback m) x
    (completionCallback m) (currentMessage m) (hasContent m)
    (shouldCreateNewMessage m) (conversationId m).
Definition set_completionCallback (x : option Callback) (m : WebSocketManager) :=
  mkManager (ws m) (isConnected m) (isConnecting m) (messageCallback m)
    (infoCallback m) x (currentMessage m) (hasContent m)
    (shouldCreateNewMessage m) (conversationId m).
Definition set_currentMessage (x : string) (m : WebSocketManager) :=
  mkManager (ws m) (isConnected m) (isConnecting m) (messageCallback m)
    (infoCallback m) (completionCallback m) x (hasContent m)
    (shouldCreateNewMessage m) (conversationId m).
Definition set_hasContent (x : bool) (m : WebSocketManager) :=
  mkManager (ws m) (isConnected m) (isConnecting m) (messageCallback m)
    (infoCallback m) (completionCallback m) (currentMessage m) x
    (shouldCreateNewMessage m) (conversationId m).
Definition set_shouldCreateNewMessage (x : bool) (m : WebSocketManager) :=
  mkManager (ws m) (isConnected m) (isConnecting m) (messageCallback m)
    (infoCallback m) (completionCallback m) (currentMessage m) (hasContent m)
    x (conversationId m).
Definition set_conversationId (x : option string) (m : WebSocketManager) :=
  mkManager (ws m) (isConnected m) (isConnecting m) (messageCallback m)
    (infoCallback m) (completionCallback m) (currentMessage m) (hasContent m)
    (shouldCreateNewMessage m) x.

(** ** Method bodies: state, log and exceptions *)

Inductive outcome (A : Type) : Type :=
| Returned (a : A) (m : WebSocketManager) (log : list effect)
| Thrown (m : WebSocketManager) (log : list effect).
Arguments Returned {A} a m log.
Arguments Thrown {A} m log.

Definition M (A : Type) : Type := WebSocketManager -> outcome A.

Definition ret {A : Type} (a : A) : M A := fun m => Returned a m [].

Definition bind {A B : Type} (c : M A) (k : A -> M B) : M B :=
  fun m =>
    match c m with
    | Returned a m1 l1 =>
        match k a m1 with
        | Returned b m2 l2 => Returned b m2 (l1 ++ l2)%list
        | Thrown m2 l2 => Thrown m2 (l1 ++ l2)%list
        end
    | Thrown m1 l1 => Thrown m1 l1
    end.

Notation "x <- c ;; k" := (bind c (fun x => k))
  (at level 61, c at next level, right associativity).
Notation "c ;;; k" := (bind c (fun _ => k))
  (at level 61, right associativity).

Definition throw {A : Type} : M A := fun m => Thrown m [].
Definition this {A : Type} (field : WebSocketManager -> A) : M A :=
  fun m => Returned (field m) m [].
Definition assign (f : WebSocketManager -> WebSocketManager) : M unit :=
  fun m => Returned tt (f m) [].
Definition call (e : effect) : M unit := fun m => Returned tt m [e].
Definition when (b : bool) (c : M unit) : M unit := if b then c else ret tt.

(** [if (f) f(...)] for a callback field. *)
Definition callIfSet (f : option Callback) (e : Callback -> effect) : M unit :=
  match f with
  | Some g => call (e g)
  | None => ret tt
  end.

(** [v.key]: a TypeError on [undefined] and [null]; the own member of an
    object; [undefined] on every other value, none of which has a property
    of the names read here ([type], [data], [delta], [text], [message]). *)
Definition prop (v : value) (key : string) : M value :=
  match v with
  | None => throw
  | Some JNull => throw
  | Some (JObj members) => ret (member key members)
  | Some _ => ret None
  end.

(** [v.length] for a truthy [v].  Of a string's length only its being
    positive is ever used, so the unit it is counted in does not matter. *)
Definition lengthOf (v : json) : value :=
  match v with
  | JStr s => Some (JNum (Z.of_nat (String.length s)))
  | JArr items => Some (JNum (Z.of_nat (List.length items)))
  | JObj members => member "length" members
  | _ => None
  end.

Definition fromOption {A : Type} (o : option A) : M A :=
  match o with
  | Some a => ret a
  | None => throw
  end.

Section Handler.
Context {JS : Coercions}.

(** [v > 0] *)
Definition gtZero (v : value) : M bool :=
  match v with
  | None => ret false
  | Some JNull => ret false
  | Some (JBool b) => ret b
  | Some (JNum n) => ret (0 <? n)%Z
  | Some w => fromOption (greaterThanZero w)
  end.

(** [deltaText && deltaText.length > 0] *)
Definition hasActualContent (deltaText : value) : M bool :=
  match deltaText with
  | Some w => if truthy deltaText then gtZero (lengthOf w) else ret false
  | None => ret false
  end.

(** The string [s + v]. *)
Definition plus (s : string) (v : json) : M string :=
  match v with
  | JStr t => ret (s ++ t)
  | w => t <- fromOption (toPrimitiveString w) ;; ret (s ++ t)
  end.

(** [close()] *)
Definition close : M unit :=
  socket <- this ws ;;
  connected <- this isConnected ;;
  when (match socket with Some _ => connected | None => false end)
    (call WsClose) ;;;
  (* Reset message state (but preserve conversationId) *)
  assign (set_currentMessage "") ;;;
  assign (set_hasContent false) ;;;
  assign (set_shouldCreateNewMessage false) ;;;
  assign (set_infoCallback None) ;;;
  assign (set_completionCallback None).

(** [handleStreamingMessage(data)] *)
Definition handleStreamingMessage (data : json) : M unit :=
  type <- prop (Some data) "type" ;;
  if strictEq type "messageStart" then
    assign (set_currentMessage "") ;;;
    assign (set_hasContent false) ;;;
    assign (set_shouldCreateNewMessage false)
  else if strictEq type "contentBlockDelta" then
    d <- prop (Some data) "data" ;;
    delta <- prop d "delta" ;;
    deltaText <- prop delta "text" ;;
    actual <- hasActualContent deltaText ;;
    match deltaText with
    | Some text =>
        if actual then
          current <- this currentMessage ;;
          appended <- plus current text ;;
          assign (set_currentMessage appended) ;;;
          assign (set_hasContent true) ;;;
          isNewMessage <- this shouldCreateNewMessage ;;
          when isNewMessage (assign (set_shouldCreateNewMessage false)) ;;;
          f <- this messageCallback ;;
          current <- this currentMessage ;;
          callIfSet f (fun g => CallMessage g (JStr current) isNewMessage)
        else ret tt
    | None => ret tt
    end
  else if strictEq type "breakTokenType" then
    content <- this hasContent ;;
    current <- this currentMessage ;;
    if content && (0 <? String.length current)%nat then
      f <- this messageCallback ;;
      callIfSet f (fun g => CallMessage g (JStr current) false) ;;;
      assign (set_currentMessage "") ;;;
      assign (set_hasContent false) ;;;
      assign (set_shouldCreateNewMessage true)
    else ret tt
  else if strictEq type "messageStop" then
    f <- this completionCallback ;;
    callIfSet f CallComplete ;;;
    close
  else if strictEq type "info" then
    f <- this infoCallback ;;
    match f with
    | Some g =>
        d <- prop (Some data) "data" ;;
        msg <- prop d "message" ;;
        (* data.data.message || data.data; [d] is defined here, reading
           [message] off it has not thrown *)
        match (if truthy msg then msg else d) with
        | Some infoMessage => call (CallInfo g infoMessage)
        | None => ret tt
        end
    | None => ret tt
    end
  else
    msg <- prop (Some data) "message" ;;
    f <- this messageCallback ;;
    match msg, f with
    | Some legacy, Some g =>
        if truthy msg then
          call (CallMessage g legacy false) ;;;
          done <- this completionCallback ;;
          callIfSet done CallComplete ;;;
          close
        else ret tt
    | _, _ => ret tt
    end.

(** [ws.onmessage]: parse, handle, and swallow whatever is thrown. *)
Definition onmessage (event : payload) (m : WebSocketManager)
  : WebSocketManager * list effect :=
  let body :=
    match event with
    | Unparseable => throw
    | Parsed data => handleStreamingMessage data
    end in
  match body m with
  | Returned _ m1 log => (m1, log)
  | Thrown m1 log => (m1, log)
  end.

(** The frames of a stream, handled one after the other. *)
Fixpoint deliver (events : list payload) (m : WebSocketManager)
  : WebSocketManager * list effect :=
  match events with
  | [] => (m, [])
  | event :: rest =>
      let (m1, log1) := onmessage event m in
      let (m2, log2) := deliver rest m1 in
      (m2, (log1 ++ log2)%list)
  end.

End Handler.

(** ** The browser around the manager *)

(** What the methods below consult outside the manager: the entry
    ['currentConversationId'] of [localStorage] ([None] when there is none),
    whether the next [getItem], [setItem] and [removeItem] throw, the
    values [Math.random() * 16 | 0] will take, and whether [new WebSocket]
    and [ws.send] throw. *)
Record Browser : Type := mkBrowser {
  item : option string;
  getItemThrows : bool;
  setItemThrows : bool;
  removeItemThrows : bool;
  random : nat -> N;
  socketThrows : bool;
  sendThrows : bool
}.

Definition set_item (x : option string) (b : Browser) : Browser :=
  mkBrowser x (getItemThrows b) (setItemThrows b) (removeItemThrows b)
    (random b) (socketThrows b) (sendThrows b).
Definition set_random (x : nat -> N) (b : Browser) : Browser :=
  mkBrowser (item b) (getItemThrows b) (setItemThrows b) (removeItemThrows b)
    x (socketThrows b) (sendThrows b).

(** [localStorage.setItem('currentConversationId', id)] inside its [try]. *)
Definition setItem (id : string) (b : Browser) : Browser :=
  if setItemThrows b then b else set_item (Some id) b.

(** [localStorage.removeItem('currentConversationId')] inside its [try]. *)
Definition removeItem (b : Browser) : Browser :=
  if removeItemThrows b then b else set_item None b.

(** [v.toString(16)] for [0 <= v < 16]. *)
Definition hexDigit (v : N) : ascii :=
  nth (N.to_nat v) (list_ascii_of_string "0123456789abcdef") "0"%char.

(** [template.replace(/[xy]/g, ...)]: every [x] becomes a random hexadecimal
    digit, every [y] one of [8], [9], [a], [b]; the result comes with the
    number of random values drawn. *)
Fixpoint replaceXY (template : string) (rand : nat -> N) (drawn : nat)
  : string * nat :=
  match template with
  | EmptyString => (EmptyString, drawn)
  | String c rest =>
      if Ascii.eqb c "x" || Ascii.eqb c "y" then
        let r := N.modulo (rand drawn) 16 in
        let v := if Ascii.eqb c "x" then r else N.lor (N.land r 3) 8 in
        let (out, n) := replaceXY rest rand (S drawn) in
        (String (hexDigit v) out, n)
      else
        let (out, n) := replaceXY rest rand drawn in
        (String c out, n)
  end.

(** [generateConversationId()] *)
Definition generateConversationId (b : Browser) : string * Browser :=
  let (uuid, n) := replaceXY "xxxxxxxx-xxxx-4xxx-yxxx-xxxxxxxxxxxx" (random b) 0 in
  ("conv_" ++ uuid, set_random (fun i => random b (n + i)) b).

(** A conversation identity as [if (id)] sees it. *)
Definition isSet (id : option string) : bool :=
  match id with
  | Some s => negb (String.eqb s "")
  | None => false
  end.

(** [startNewConversation()] *)
Definition startNewConversation (m : WebSocketManager) (b : Browser)
  : option string * WebSocketManager * Browser :=
  let (id, b1) := generateConversationId b in
  let m1 := set_conversationId (Some id) m in
  (conversationId m1, m1, setItem id b1).

(** [getConversationId()] *)
Definition getConversationId (m : WebSocketManager) (b : Browser)
  : option string * WebSocketManager * Browser :=
  if negb (isSet (conversationId m)) then
    (* Try to recover from localStorage first *)
    let stored := if getItemThrows b then None else item b in
    if isSet stored then
      let m1 := set_conversationId stored m in
      (conversationId m1, m1, b)
    else
      (* Generate new if none exists *)
      let '(_, m1, b1) := startNewConversation m b in
      (conversationId m1, m1, b1)
  else (conversationId m, m, b).

(** [clearConversation()] *)
Definition clearConversation (m : WebSocketManager) (b : Browser)
  : WebSocketManager * Browser :=
  (set_conversationId None m, removeItem b).

(** [setConversationId(conversationId)] *)
Definition setConversationId (id : string) (m : WebSocketManager) (b : Browser)
  : WebSocketManager * Browser :=
  (set_conversationId (Some id) m, setItem id b).

(** ** Connection and sending *)

(** How a promise is settled; [None] below stands for one still pending. *)
Inductive settled : Type :=
| Resolved
| Rejected (reason : string).

(** [connect()] up to the installation of the handlers; the promise stays
    pending until [onopen] or [onerror] runs. *)
Definition connect (m : WebSocketManager) (b : Browser)
  : option settled * WebSocketManager :=
  if isConnected m || isConnecting m then (Some Resolved, m)
  else
    let m1 := set_isConnecting true m in
    if socketThrows b then
      (Some (Rejected "WebSocket constructor"), set_isConnecting false m1)
    else (None, set_ws (Some Socket) m1).

Definition onopen (m : WebSocketManager) : WebSocketManager :=
  set_isConnecting false (set_isConnected true m).
Definition onclose (m : WebSocketManager) : WebSocketManager :=
  set_isConnecting false (set_isConnected false m).
Definition onerror (m : WebSocketManager) : WebSocketManager :=
  set_isConnecting false (set_isConnected false m).

(** [getConnectionStatus()] *)
Definition getConnectionStatus (m : WebSocketManager) : string :=
  if isConnecting m then "connecting"
  else if isConnected m then "connected"
  else "disconnected".

(** [sendMessage(message, messages, userInfo)]: how the promise is settled, the
    manager and the browser afterwards, and what went to the socket. *)
Definition sendMessage (msg msgs info : json) (m : WebSocketManager) (b : Browser)
  : settled * WebSocketManager * Browser * list effect :=
  if negb (isConnected m) then
    (Rejected "WebSocket is not connected", m, b, [])
  else
    let '(id, m1, b1) := getConversationId m b in
    let packet :=
      mkPacket "sendMessage" msg msgs
        (match id with Some s => s | None => "" end) info in
    match ws m1 with
    | Some _ =>
        if sendThrows b1 then (Rejected "send", m1, b1, [])
        else (Resolved, m1, b1, [WsSend packet])
    | None => (Rejected "send", m1, b1, [])
    end.

(** The first three statements of [sendMessageAndWaitForResponse]. *)
Definition registerCallbacks
  (onMessageReceived onInfoReceived onMessageComplete : option Callback)
  (m : WebSocketManager) : WebSocketManager :=
  set_completionCallback onMessageComplete
    (set_infoCallback onInfoReceived
       (set_messageCallback onMessageReceived m)).

(** [sendMessageAndWaitForResponse(...)], run without another event coming
    in between its steps.  [opens] says how a pending [connect()] ends: with
    [onopen], or with [onerror].  The result is how the promise is settled;
    on a rejection the [catch] has run [close()]. *)
Definition sendMessageAndWaitForResponse (msg msgs : json)
  (onMessageReceived onInfoReceived onMessageComplete : option Callback)
  (info : json) (opens : bool) (m : WebSocketManager) (b : Browser)
  : settled * WebSocketManager * Browser * list effect :=
  let m0 :=
    registerCallbacks onMessageReceived onInfoReceived onMessageComplete m in
  let cleanup (reason : string) (m1 : WebSocketManager) (b1 : Browser)
        (log : list effect) :=
    match close m1 with
    | Returned _ m2 log2 => (Rejected reason, m2, b1, (log ++ log2)%list)
    | Thrown m2 log2 => (Rejected reason, m2, b1, (log ++ log2)%list)
    end in
  let send (m1 : WebSocketManager) :=
    match sendMessage msg msgs info m1 b with
    | (Resolved, m2, b2, log) => (Resolved, m2, b2, log)
    | (Rejected reason, m2, b2, log) => cleanup reason m2 b2 log
    end in
  match connect m0 b with
  | (Some Resolved, m1) => send m1
  | (Some (Rejected reason), m1) => cleanup reason m1 b []
  | (None, m1) =>
      if opens then send (onopen m1)
      else cleanup "WebSocket error" (onerror m1) b []
  end.

(** ** Frames as the server sends them *)

(** The frame kinds of the streaming protocol and their wire form. *)
Inductive Frame : Type :=
| MessageStart
| ContentDelta (text : string)
| BreakToken
| MessageStop
| Info (text : string)
| Legacy (text : string).

Definition tagged (tag : string) (rest : list (string * json)) : payload :=
  Parsed (JObj (("type", JStr tag) :: rest)).

Definition encode (f : Frame) : payload :=
  match f with
  | MessageStart => tagged "messageStart" []
  | ContentDelta text =>
      tagged "contentBlockDelta"
        [("data", JObj [("delta", JObj [("text", JStr text)])])]
  | BreakToken => tagged "breakTokenType" []
  | MessageStop => tagged "messageStop" []
  | Info text => tagged "info" [("data", JObj [("message", JStr text)])]
  | Legacy text => Parsed (JObj [("message", JStr text)])
  end.

(** The type tag of a payload is one of the five the handler knows. *)
Definition recognized (data : json) : bool :=
  match data with
  | JObj members =>
      let type := member "type" members in
      strictEq type "messageStart" || strictEq type "contentBlockDelta"
      || strictEq type "breakTokenType" || strictEq type "messageStop"
      || strictEq type "info"
  | _ => false
  end.

(** The top-level [type] of a payload, [undefined] when it has none. *)
Definition typeOf (data : json) : value :=
  match data with
  | JObj members => member "type" members
  | _ => None
  end.

(** The top-level [message] of a payload, [undefined] when it has none. *)
Definition topMessage (data : json) : value :=
  match data with
  | JObj members => member "message" members
  | _ => None
  end.

(** A content delta whose text is an array or an object, which the handler
    would convert to a string. *)
Definition coercedDelta (event : payload) : bool :=
  match event with
  | Parsed (JObj members) =>
      strictEq (member "type" members) "contentBlockDelta"
      && match member "data" members with
         | Some (JObj d) =>
             match member "delta" d with
             | Some (JObj e) =>
                 match member "text" e with
                 | Some (JArr _) | Some (JObj _) => true
                 | _ => false
                 end
             | _ => false
             end
         | _ => false
         end
  | _ => false
  end.

(** ** Reading a log *)

Definition isMessageCall (e : effect) : bool :=
  match e with CallMessage _ _ _ => true | _ => false end.
Definition isInfoCall (e : effect) : bool :=
  match e with CallInfo _ _ => true | _ => false end.
Definition isCompleteCall (e : effect) : bool :=
  match e with CallComplete _ => true | _ => false end.

(** The calls of [onMessage], [onInfo] and [onComplete] in a log. *)
Definition callbacks (log : list effect) : list effect :=
  filter (fun e => isMessageCall e || isInfoCall e || isCompleteCall e) log.
Definition messageCalls (log : list effect) : list effect :=
  filter isMessageCall log.
Definition completions (log : list effect) : list effect :=
  filter isCompleteCall log.

(** [if (f) f(...)] as a piece of log. *)
Definition notify (f : option Callback) (e : Callback -> effect) : list effect :=
  match f with
  | Some g => [e g]
  | None => []
  end.

(** ** What one frame can do *)

Definition withAccumulator (text : string) (content pending : bool)
  (m : WebSocketManager) : WebSocketManager :=
  set_shouldCreateNewMessage pending
    (set_hasContent content (set_currentMessage text m)).

(** The manager after [close()], and the call [close()] makes. *)
Definition closed (m : WebSocketManager) : WebSocketManager :=
  set_completionCallback None
    (set_infoCallback None (withAccumulator "" false false m)).
Definition closeLog (m : WebSocketManager) : list effect :=
  match ws m with
  | Some _ => if isConnected m then [WsClose] else []
  | None => []
  end.

(** Every way [onmessage] can take the manager from one state to the next,
    with the log of that step. *)
Inductive transition (event : payload) (m : WebSocketManager)
  : WebSocketManager -> list effect -> Prop :=
| t_dropped : transition event m m []
| t_start : transition event m (withAccumulator "" false false m) []
| t_delta (t : string) :
    t <> "" \/ coercedDelta event = true ->
    transition event m
      (withAccumulator (currentMessage m ++ t) true false m)
      (notify (messageCallback m)
         (fun g => CallMessage g (JStr (currentMessage m ++ t))
                     (shouldCreateNewMessage m)))
| t_break :
    hasContent m = true -> currentMessage m <> "" ->
    transition event m
      (withAccumulator "" false true m)
      (notify (messageCallback m)
         (fun g => CallMessage g (JStr (currentMessage m)) false))
| t_stop :
    transition event m (closed m)
      (notify (completionCallback m) CallComplete ++ closeLog m)
| t_info (g : Callback) (infoMessage : json) :
    infoCallback m = Some g ->
    transition event m m [CallInfo g infoMessage]
| t_legacy (g : Callback) (legacy : json) :
    messageCallback m = Some g ->
    transition event m (closed m)
      (CallMessage g legacy false
         :: notify (completionCallback m) CallComplete ++ closeLog m).

(** ** Notions the properties are stated with *)

(** The texts of a run of deltas, put end to end. *)
Definition concatenation (texts : list string) : string :=
  fold_right String.append "" texts.

(** What a run of non-empty deltas is expected to report: after each delta,
    everything accumulated so far. *)
Fixpoint running (g : Callback) (pending : bool) (acc : string)
  (texts : list string) : list effect :=
  match texts with
  | [] => []
  | d :: rest =>
      CallMessage g (JStr (acc ++ d)) pending :: running g false (acc ++ d) rest
  end.

Definition deltas (texts : list string) : list payload :=
  map (fun d => encode (ContentDelta d)) texts.

Definition scenarioB : list Frame :=
  [MessageStart; ContentDelta "Thinking..."; BreakToken; ContentDelta "Answer";
   MessageStop].

(** The part of a log that follows the first call of [onComplete]. *)
Fixpoint afterCompletion (log : list effect) : list effect :=
  match log with
  | [] => []
  | CallComplete _ :: rest => rest
  | _ :: rest => afterCompletion rest
  end.

Definition infoOrComplete (e : effect) : bool :=
  isInfoCall e || isCompleteCall e.

(** A payload that either does not parse or carries a type tag that is none
    of the five. *)
Definition unparseableOrUnknown (event : payload) : Prop :=
  match event with
  | Unparseable => True
  | Parsed data => typeOf data <> None /\ recognized data = false
  end.

(** Such a payload that moreover does not fall to the legacy branch: it has no
    truthy top-level [message], or no message callback is registered. *)
Definition passedOver (m : WebSocketManager) (event : payload) : Prop :=
  match event with
  | Unparseable => True
  | Parsed data =>
      recognized data = false
      /\ (truthy (topMessage data) = false \/ messageCallback m = None)
  end.

Definition freshAccumulator (m : WebSocketManager) : Prop :=
  currentMessage m = "" /\ hasContent m = false
  /\ shouldCreateNewMessage m = false.

Section Reachability.
Context {JS : Coercions}.

(** The states a manager goes through from [start] by handling frames whose
    delta text, if any, is a string or another primitive, and by calls of
    [close()]. *)
Inductive reachable (start : WebSocketManager) : WebSocketManager -> Prop :=
| r_start : reachable start start
| r_frame (m : WebSocketManager) (event : payload) :
    reachable start m -> coercedDelta event = false ->
    reachable start (fst (onmessage event m))
| r_close (m m1 : WebSocketManager) (log : list effect) :
    reachable start m -> close m = Returned tt m1 log ->
    reachable start m1.

End Reachability.

(** [hasContent] says that there is text, and a pending new message comes
    with an empty accumulator. *)
Definition coherent (m : WebSocketManager) : Prop :=
  (hasContent m = true <-> currentMessage m <> "")
  /\ (shouldCreateNewMessage m = true ->
      currentMessage m = "" /\ hasContent m = false).

(** ** A turn to run examples on *)

Definition quietBrowser : Browser :=
  mkBrowser None false false false (fun i => N.of_nat i) false false.

(** The manager when the first frame of a first turn arrives: callbacks
    [1], [2] and [3] registered, the socket open, the request sent. *)
Definition turn : WebSocketManager :=
  match sendMessageAndWaitForResponse (JStr "hello") (JArr [])
          (Some 1) (Some 2) (Some 3) JNull true newManager quietBrowser with
  | (_, m, _, _) => m
  end.

(** The string an array of strings converts to, its elements joined by
    commas; an instance of the conversions that knows this one only. *)
Fixpoint joined (items : list json) : option string :=
  match items with
  | [] => Some ""
  | [JStr s] => Some s
  | JStr s :: rest =>
      match joined rest with
      | Some t => Some (s ++ "," ++ t)
      | None => None
      end
  | _ => None
  end.

Definition arraysOfStrings : Coercions :=
  {| greaterThanZero := fun _ => None;
     toPrimitiveString :=
       fun v => match v with JArr items => joined items | _ => None end |}.

(** ** Further notions: identifiers, payloads by tag *)

(** The characters a generated identifier may have at a position of the
    template: a hexadecimal digit for [x], one of [8], [9], [a], [b] for
    [y], the character of the template anywhere else. *)
Definition isHex (c : ascii) : bool :=
  existsb (Ascii.eqb c) (list_ascii_of_string "0123456789abcdef").
Definition isVariant (c : ascii) : bool :=
  existsb (Ascii.eqb c) (list_ascii_of_string "89ab").
Fixpoint conformsTo (template s : string) : bool :=
  match template, s with
  | EmptyString, EmptyString => true
  | String t template', String c s' =>
      (if Ascii.eqb t "x" then isHex c
       else if Ascii.eqb t "y" then isVariant c
       else Ascii.eqb c t)
      && conformsTo template' s'
  | _, _ => false
  end.

(** The number of [x] and [y] in a template. *)
Fixpoint placeholders (template : string) : nat :=
  match template with
  | EmptyString => 0
  | String c rest =>
      (if Ascii.eqb c "x" || Ascii.eqb c "y" then 1 else 0) + placeholders rest
  end.

(** The payload parses and its top-level [type] is the string [tag]. *)
Definition tagIs (event : payload) (tag : string) : Prop :=
  match event with
  | Parsed data => typeOf data = Some (JStr tag)
  | Unparseable => False
  end.

Definition isBreak (event : payload) : bool :=
  match event with
  | Parsed data => strictEq (typeOf data) "breakTokenType"
  | Unparseable => false
  end.

(** [data.data.delta.text] of a payload, [undefined] also when reading it
    throws. *)
Definition deltaText (event : payload) : value :=
  match event with
  | Parsed (JObj members) =>
      match member "data" members with
      | Some (JObj d) =>
          match member "delta" d with
          | Some (JObj e) => member "text" e
          | _ => None
          end
      | _ => None
      end
  | _ => None
  end.

(** A delta text with nothing to add: absent, [null], a boolean, a number or
    the empty string. *)
Definition inert (v : value) : bool :=
  match v with
  | None | Some JNull | Some (JBool _) | Some (JNum _) => true
  | Some (JStr s) => String.eqb s ""
  | Some (JArr _) | Some (JObj _) => false
  end.

(** The steps of [onmessage] again, each with the payload it is taken on. *)
Inductive handled (event : payload) (m : WebSocketManager)
  : WebSocketManager -> list effect -> Prop :=
| h_dropped : handled event m m []
| h_start :
    tagIs event "messageStart" ->
    handled event m (withAccumulator "" false false m) []
| h_delta (t : string) :
    tagIs event "contentBlockDelta" ->
    (deltaText event = Some (JStr t) /\ t <> "") \/ coercedDelta event = true ->
    handled event m
      (withAccumulator (currentMessage m ++ t) true false m)
      (notify (messageCallback m)
         (fun g => CallMessage g (JStr (currentMessage m ++ t))
                     (shouldCreateNewMessage m)))
| h_break :
    tagIs event "breakTokenType" ->
    hasContent m = true -> currentMessage m <> "" ->
    handled event m
      (withAccumulator "" false true m)
      (notify (messageCallback m)
         (fun g => CallMessage g (JStr (currentMessage m)) false))
| h_stop :
    tagIs event "messageStop" ->
    handled event m (closed m)
      (notify (completionCallback m) CallComplete ++ closeLog m)
| h_info (g : Callback) (infoMessage : json) :
    tagIs event "info" ->
    infoCallback m = Some g ->
    handled event m m [CallInfo g infoMessage]
| h_legacy (g : Callback) (data legacy : json) :
    event = Parsed data -> recognized data = false ->
    topMessage data = Some legacy -> truthy (Some legacy) = true ->
    messageCallback m = Some g ->
    handled event m (closed m)
      (CallMessage g legacy false
         :: notify (completionCallback m) CallComplete ++ closeLog m).

(** A call made on a callback that the manager holds. *)
Definition registeredIn (m : WebSocketManager) (e : effect) : Prop :=
  match e with
  | CallMessage g _ _ => messageCallback m = Some g
  | CallInfo g _ => infoCallback m = Some g
  | CallComplete g => completionCallback m = Some g
  | _ => True
  end.

(** The calls [onMessage(..., true)] of a log. *)
Definition newMessageCalls (log : list effect) : list effect :=
  filter (fun e => match e with CallMessage _ _ true => true | _ => false end)
    log.

(** A call of [onMessage] whose text is falsy. *)
Definition emptyMessageCall (e : effect) : bool :=
  match e with
  | CallMessage _ v _ => negb (truthy (Some v))
  | _ => false
  end.

(** ** The socket's side of a stream *)

Definition isCloseCall (e : effect) : bool :=
  match e with WsClose => true | _ => false end.
Definition isSendCall (e : effect) : bool :=
  match e with WsSend _ => true | _ => false end.

Definition isDelta (event : payload) : bool :=
  match event with
  | Parsed data => strictEq (typeOf data) "contentBlockDelta"
  | Unparseable => false
  end.

Section Socket.
Context {JS : Coercions}.

(** The frames of a stream as the socket hands them to [onmessage], the
    handler's only caller (line 118): once a handler has called [ws.close()]
    the socket is closing, and a closing socket fires no further message
    event, so the frames after that one are never handled.  A socket fires
    message events only between its [onopen], which sets [isConnected], and
    its [onclose] or [onerror]; so frames find the manager with [ws] set and
    [isConnected] true, where [close()] does call [ws.close()]. *)
Fixpoint receive (events : list payload) (m : WebSocketManager)
  : WebSocketManager * list effect :=
  match events with
  | [] => (m, [])
  | event :: rest =>
      let (m1, log1) := onmessage event m in
      if existsb isCloseCall log1 then (m1, log1)
      else
        let (m2, log2) := receive rest m1 in
        (m2, (log1 ++ log2)%list)
  end.

(** The frames of a stream that are handled. *)
Fixpoint received (events : list payload) (m : WebSocketManager)
  : list payload :=
  match events with
  | [] => []
  | event :: rest =>
      let (m1, log1) := onmessage event m in
      event :: (if existsb isCloseCall log1 then [] else received rest m1)
  end.

(** The text a payload adds to the message being built: for a content delta
    that passes the handler's guard, the string its text is appended as; for
    anything else, nothing.  The guard and the conversion are the handler's
    own; they do not read the manager. *)
Definition contribution (event : payload) : option string :=
  match event with
  | Parsed (JObj members) =>
      if strictEq (member "type" members) "contentBlockDelta" then
        match deltaText event with
        | Some text =>
            match hasActualContent (Some text) newManager with
            | Returned true _ _ =>
                match plus "" text newManager with
                | Returned t _ _ => Some t
                | Thrown _ _ => None
                end
            | _ => None
            end
        | None => None
        end
      else None
  | _ => None
  end.


(** The states a manager goes through from [start] by handling frames of
    any kind and by calls of [close()]. *)
Inductive reachableByAny (start : WebSocketManager)
  : WebSocketManager -> Prop :=
| any_start : reachableByAny start start
| any_frame (m : WebSocketManager) (event : payload) :
    reachableByAny start m ->
    reachableByAny start (fst (onmessage event m))
| any_close (m m1 : WebSocketManager) (log : list effect) :
    reachableByAny start m -> close m = Returned tt m1 log ->
    reachableByAny start m1.

(** A frame that arrives on an open socket, with a message callback
    registered, does one of five things. *)
Inductive stepKind (event : payload) (m : WebSocketManager) (g : Callback)
  : Prop :=
| k_adds (t : string) :
    contribution event = Some t ->
    onmessage event m
    = (withAccumulator (currentMessage m ++ t) true false m,
       [CallMessage g (JStr (currentMessage m ++ t))
          (shouldCreateNewMessage m)]) ->
    stepKind event m g
| k_passes :
    contribution event = None ->
    fst (onmessage event m) = m ->
    filter isMessageCall (snd (onmessage event m)) = [] ->
    filter isCompleteCall (snd (onmessage event m)) = [] ->
    existsb isCloseCall (snd (onmessage event m)) = false ->
    stepKind event m g
| k_closes :
    contribution event = None ->
    existsb isCloseCall (snd (onmessage event m)) = true ->
    filter (fun e => isMessageCall e || isInfoCall e || isCompleteCall e)
      (afterCompletion (snd (onmessage event m))) = [] ->
    stepKind event m g
| k_starts :
    tagIs event "messageStart" -> stepKind event m g
| k_breaks :
    tagIs event "breakTokenType" -> hasContent m = true ->
    stepKind event m g.


End Socket.

(** ** The chat screen and the message list

    The callers of the manager: the message list of [AppContext.tsx] with its
    updaters, and the helpers and callbacks of [ChatScreen].  A state updater
    [setMessages(prev => ...)] is the function it applies to [prev]. *)

Module Chat.

Inductive Sender : Type := user | bot.

Module Resource.
Record t : Type := mk {
  id : string;
  name : string;
  description : string;
  category : string;
  phone : option string;
  address : option string;
  website : option string;
  isOurJourney : option bool
}.
End Resource.

(** A [Date] is kept as its time value in milliseconds. *)
Record Message : Type := mkMessage {
  id : string;
  text : string;
  sender : Sender;
  timestamp : N;
  quickReplies : option (list string);
  resources : option (list Resource.t)
}.

(** [Partial<Message>]: the keys present, each with its value. *)
Module Partial.
Record t : Type := mk {
  id : option string;
  text : option string;
  sender : option Sender;
  timestamp : option N;
  quickReplies : option (option (list string));
  resources : option (option (list Resource.t))
}.
(** [{ text: s }] *)
Definition ofText (s : string) : t := mk None (Some s) None None None None.
End Partial.

Definition orElse {A : Type} (o : option A) (a : A) : A :=
  match o with
  | Some v => v
  | None => a
  end.

(** [{ ...msg, ...updates }] *)
Definition spread (msg : Message) (updates : Partial.t) : Message :=
  {| id := orElse (Partial.id updates) (id msg);
     text := orElse (Partial.text updates) (text msg);
     sender := orElse (Partial.sender updates) (sender msg);
     timestamp := orElse (Partial.timestamp updates) (timestamp msg);
     quickReplies := orElse (Partial.quickReplies updates) (quickReplies msg);
     resources := orElse (Partial.resources updates) (resources msg) |}.

(** [addMessage(message)] *)
Definition addMessage (message : Message) (prev : list Message)
  : list Message :=
  (prev ++ [message])%list.

(** [updateMessage(messageId, updates)] *)
Definition updateMessage (messageId : string) (updates : Partial.t)
  (prev : list Message) : list Message :=
  map (fun msg => if String.eqb (id msg) messageId then spread msg updates
                  else msg) prev.

(** [clearMessages()] *)
Definition clearMessages (prev : list Message) : list Message := [].

(** An entry of the history sent to the model. *)
Module Claude.
Record Content : Type := mkContent { text : string }.
Record Entry : Type := mkEntry { role : string; content : list Content }.
End Claude.

Definition isBot (s : Sender) : bool :=
  match s with bot => true | user => false end.

(** [transformMessagesToClaudeFormat(msgs)] *)
Definition transformMessagesToClaudeFormat (msgs : list Message)
  : list Claude.Entry :=
  map (fun msg =>
         Claude.mkEntry
           (match sender msg with user => "user" | bot => "assistant" end)
           [Claude.mkContent (text msg)])
    (filter (fun msg => negb (isBot (sender msg))
                        || negb (String.eqb (text msg) ""))
       (filter (fun msg => negb (String.eqb (id msg) "1")) msgs)).

(** The line feed character. *)
Definition newline : ascii := ascii_of_nat 10.

(** [unescapeNewlines(text)], that is [text.replace(/\\n/g, '\n')]: from left
    to right, every backslash followed by [n] becomes a line feed. *)
Fixpoint unescapeNewlines (s : string) : string :=
  match s with
  | EmptyString => EmptyString
  | String c rest =>
      match rest with
      | String d rest' =>
          if Ascii.eqb c "\" && Ascii.eqb d "n" then
            String newline (unescapeNewlines rest')
          else String c (unescapeNewlines rest)
      | EmptyString => String c EmptyString
      end
  end.

(** The two characters backslash, [n] occur next to each other. *)
Fixpoint hasEscapedNewline (s : string) : bool :=
  match s with
  | EmptyString => false
  | String c rest =>
      match rest with
      | String d _ =>
          (Ascii.eqb c "\" && Ascii.eqb d "n") || hasEscapedNewline rest
      | EmptyString => false
      end
  end.

(** The state of the screen that the callbacks write. *)
Record Screen : Type := mkScreen {
  messages : list Message;
  isStreaming : bool;
  isInputDisabled : bool;
  currentInfoMessage : option json;
  currentAssistantMessageId : option string
}.

(** [n.toString()] for a time value. *)
Definition numberToString (n : N) : string :=
  NilEmpty.string_of_uint (N.to_uint n).

Section Callbacks.
(** [s.trim().length > 0] is false *)
Variable blank : string -> bool.

(** [onBotMessageReceived(botMessage, isNewMessage)] as [handleSend] defines
    it, closed over the identifier of the placeholder it has added;
    [now] is what [Date.now()] and [stamp] what [new Date()] give when the new
    message is made. *)
Definition onBotMessageReceived (assistantMessageId : string) (now stamp : N)
  (botMessage : string) (isNewMessage : bool) (st : Screen) : Screen :=
  let st1 :=
    if negb (String.eqb botMessage "") && negb (blank botMessage) then
      mkScreen (messages st) false (isInputDisabled st) None
        (currentAssistantMessageId st)
    else st in
  if isNewMessage then
    let newAssistantMessageId := numberToString now in
    let newAssistantMessage :=
      mkMessage newAssistantMessageId botMessage bot stamp None None in
    mkScreen (addMessage newAssistantMessage (messages st1)) (isStreaming st1)
      (isInputDisabled st1) (currentInfoMessage st1)
      (Some newAssistantMessageId)
  else
    mkScreen
      (updateMessage assistantMessageId (Partial.ofText botMessage)
         (messages st1))
      (isStreaming st1) (isInputDisabled st1) (currentInfoMessage st1)
      (currentAssistantMessageId st1).

(** [onInfoReceived(infoMessage)] *)
Definition onInfoReceived (infoMessage : json) (st : Screen) : Screen :=
  mkScreen (messages st) (isStreaming st) (isInputDisabled st)
    (Some infoMessage) (currentAssistantMessageId st).

(** [onMessageComplete()] *)
Definition onMessageComplete (st : Screen) : Screen :=
  mkScreen (messages st) (isStreaming st) false (currentInfoMessage st) None.

(** What one call of the manager does to the screen.  A text that is not a
    string is truthy whenever the manager passes one, and the callback then
    throws on [trim] before it has written anything. *)
Definition dispatch (assistantMessageId : string) (clock : N * N) (e : effect)
  (st : Screen) : Screen :=
  match e with
  | CallMessage _ (JStr botMessage) isNewMessage =>
      onBotMessageReceived assistantMessageId (fst clock) (snd clock)
        botMessage isNewMessage st
  | CallMessage _ _ _ => st
  | CallInfo _ infoMessage => onInfoReceived infoMessage st
  | CallComplete _ => onMessageComplete st
  | WsClose | WsSend _ => st
  end.

(** The screen after the calls of a log, the k-th made at time [clock k]. *)
Fixpoint render (assistantMessageId : string) (clock : nat -> N * N)
  (log : list effect) (st : Screen) : Screen :=
  match log with
  | [] => st
  | e :: rest =>
      render assistantMessageId (fun k => clock (S k)) rest
        (dispatch assistantMessageId (clock 0%nat) e st)
  end.

End Callbacks.

(** A screen while an answer is awaited: the message typed and the
    placeholder for the answer. *)
Definition whileTyping : Screen :=
  mkScreen
    [mkMessage "100" "Housing" user 100 None None;
     mkMessage "101" "" bot 100 None None]
    true true None (Some "101").

End Chat.

(** * Properties *)

Lemma append_assoc (a b c : string) : (a ++ b) ++ c = a ++ (b ++ c).
Proof. induction a as [|x a IH]; cbn; [reflexivity | now rewrite IH]. Qed.

Lemma append_empty_r (a : string) : a ++ "" = a.
Proof. induction a as [|x a IH]; cbn; [reflexivity | now rewrite IH]. Qed.

Lemma append_nonempty (a b : string) : b <> "" -> a ++ b <> "".
Proof. destruct a; cbn; [tauto | discriminate]. Qed.

Lemma bind_ret {A B : Type} (a : A) (k : A -> M B) (m : WebSocketManager) :
  (x <- ret a ;; k x) m = k a m.
Proof. unfold bind, ret. destruct (k a m); reflexivity. Qed.

(** One case split on the next thing the handler inspects. *)
Ltac split_match :=
  match goal with
  | |- context [match member ?k ?l with _ => _ end] =>
      destruct (member k l) as [[]|] eqn:?
  | |- context [match greaterThanZero ?v with _ => _ end] =>
      destruct (greaterThanZero v) as [[]|] eqn:?
  | |- context [match toPrimitiveString ?v with _ => _ end] =>
      destruct (toPrimitiveString v) eqn:?
  | |- context [match ?f with Some _ => _ | None => _ end] => destruct f eqn:?
  | |- context [if ?b then _ else _] => destruct b eqn:?
  end.

(** The fallback branch of the handler, reached with any unknown tag. *)
Ltac legacy_case m :=
  destruct m; unfold callIfSet, close, when; cbn; repeat (split_match; cbn);
  first [ apply t_dropped | eapply t_legacy; reflexivity ].

Section Steps.
Context {JS : Coercions}.

(** [close()] never throws; it leaves the manager [closed] and calls
    [ws.close()] when there is a socket and the manager is connected. *)
Lemma close_returns (m : WebSocketManager) :
  close m = Returned tt (closed m) (closeLog m).
Proof.
  destruct m as [[w|] [|] ? ? ? ? ? ? ? ?]; reflexivity.
Qed.

(** Whatever the payload, [onmessage] makes one of the [transition]s. *)
Lemma onmessage_transition (event : payload) (m : WebSocketManager) :
  transition event m (fst (onmessage event m)) (snd (onmessage event m)).
Proof.
  destruct event as [|data]; [apply t_dropped|].
  unfold onmessage, handleStreamingMessage.
  destruct data as [| b | n | s | items | members]; try apply t_dropped.
  cbn [prop]. rewrite bind_ret.
  destruct (member "type" members) as [[| b | n | tag | items | ms]|] eqn:Etype;
    cbn [strictEq].
  1-3,5-7: legacy_case m.
  destruct (String.eqb_spec tag "messageStart") as [->|_].
  { destruct m; apply t_start. }
  destruct (String.eqb_spec tag "contentBlockDelta") as [->|_].
  { destruct m;
      repeat (unfold prop, callIfSet, when, hasActualContent, plus, gtZero,
                lengthOf, fromOption;
              cbn; split_match); cbn; try apply t_dropped;
      (eapply t_delta;
       first [ left; intros ->; discriminate
             | right; unfold coercedDelta;
               repeat match goal with H : member _ _ = _ |- _ => rewrite H end;
               reflexivity ]). }
  destruct (String.eqb_spec tag "breakTokenType") as [->|_].
  { destruct m as [? ? ? ? ? ? current content ? ?]; unfold callIfSet; cbn.
    destruct content; cbn; try apply t_dropped.
    destruct current as [|c rest]; cbn; try apply t_dropped.
    destruct messageCallback0; cbn; apply t_break; cbn; congruence. }
  destruct (String.eqb_spec tag "messageStop") as [->|_].
  { destruct m; unfold callIfSet, close, when; cbn.
    repeat (split_match; cbn); apply t_stop. }
  destruct (String.eqb_spec tag "info") as [->|_].
  { destruct m;
      repeat (unfold prop; cbn; split_match); cbn; try apply t_dropped;
      eapply t_info; reflexivity. }
  legacy_case m.
Qed.

(** *** The frames of the protocol, one by one *)

Lemma on_MessageStart (m : WebSocketManager) :
  onmessage (encode MessageStart) m = (withAccumulator "" false false m, []).
Proof. destruct m; reflexivity. Qed.

Lemma on_ContentDelta (text : string) (m : WebSocketManager) :
  text <> "" ->
  onmessage (encode (ContentDelta text)) m
  = (withAccumulator (currentMessage m ++ text) true false m,
     notify (messageCallback m)
       (fun g => CallMessage g (JStr (currentMessage m ++ text))
                   (shouldCreateNewMessage m))).
Proof.
  intros Htext. destruct text as [|c text]; [congruence|].
  destruct m as [? ? ? [g|] ? ? ? ? [|] ?]; reflexivity.
Qed.

Lemma on_ContentDelta_empty (m : WebSocketManager) :
  onmessage (encode (ContentDelta "")) m = (m, []).
Proof. destruct m; reflexivity. Qed.

Lemma on_BreakToken (m : WebSocketManager) :
  hasContent m = true -> currentMessage m <> "" ->
  onmessage (encode BreakToken) m
  = (withAccumulator "" false true m,
     notify (messageCallback m)
       (fun g => CallMessage g (JStr (currentMessage m)) false)).
Proof.
  destruct m as [? ? ? [g|] ? ? [|c current] [|] ? ?]; cbn; intros Hc Ht;
    try congruence; reflexivity.
Qed.

Lemma on_BreakToken_ignored (m : WebSocketManager) :
  hasContent m = false \/ currentMessage m = "" ->
  onmessage (encode BreakToken) m = (m, []).
Proof.
  destruct m as [? ? ? ? ? ? [|c current] [|] ? ?]; cbn; intros [H|H];
    try congruence; reflexivity.
Qed.

Lemma on_MessageStop (m : WebSocketManager) :
  onmessage (encode MessageStop) m
  = (closed m, (notify (completionCallback m) CallComplete ++ closeLog m)%list).
Proof.
  destruct m as [[w|] [|] ? ? ? [g|] ? ? ? ?]; reflexivity.
Qed.

Lemma on_Info (text : string) (m : WebSocketManager) :
  onmessage (encode (Info text)) m
  = (m, notify (infoCallback m)
          (fun g => CallInfo g (if String.eqb text ""
                                then JObj [("message", JStr text)]
                                else JStr text))).
Proof.
  destruct text; destruct m as [? ? ? ? [g|] ? ? ? ? ?]; reflexivity.
Qed.

Lemma on_Legacy (text : string) (m : WebSocketManager) (g : Callback) :
  text <> "" -> messageCallback m = Some g ->
  onmessage (encode (Legacy text)) m
  = (closed m,
     (CallMessage g (JStr text) false
        :: notify (completionCallback m) CallComplete ++ closeLog m)%list).
Proof.
  intros Htext. destruct text as [|c text]; [congruence|].
  destruct m as [[w|] [|] ? ? ? [h|] ? ? ? ?]; cbn; intros ->; reflexivity.
Qed.

Lemma deliver_app (a b : list payload) (m : WebSocketManager) :
  deliver (a ++ b) m
  = (fst (deliver b (fst (deliver a m))),
     snd (deliver a m) ++ snd (deliver b (fst (deliver a m))))%list.
Proof.
  revert m; induction a as [|e a IH]; intros m; cbn.
  - destruct (deliver b m); reflexivity.
  - destruct (onmessage e m) as [m1 l1]. rewrite IH.
    destruct (deliver a m1) as [m2 l2]; cbn.
    destruct (deliver b m2) as [m3 l3]; cbn.
    now rewrite app_assoc.
Qed.

Lemma deliver_cons (e : payload) (rest : list payload) (m : WebSocketManager) :
  deliver (e :: rest) m
  = (fst (deliver rest (fst (onmessage e m))),
     snd (onmessage e m) ++ snd (deliver rest (fst (onmessage e m))))%list.
Proof.
  cbn. destruct (onmessage e m) as [m1 l1]; cbn.
  destruct (deliver rest m1); reflexivity.
Qed.

End Steps.

(** ** Accumulating deltas *)

Section Accumulation.
Context {JS : Coercions}.

Lemma deltas_log (texts : list string) :
  forall (m : WebSocketManager) (g : Callback),
    messageCallback m = Some g ->
    Forall (fun d => d <> "") texts ->
    snd (deliver (deltas texts) m)
    = running g (shouldCreateNewMessage m) (currentMessage m) texts.
Proof.
  induction texts as [|d rest IH]; intros m g Hg Hne; [reflexivity|].
  inversion Hne as [|? ? Hd Hrest]; subst.
  unfold deltas; cbn [map]. rewrite deliver_cons, on_ContentDelta by assumption.
  cbn [fst snd]. rewrite Hg; cbn [notify app].
  f_equal. fold (deltas rest). rewrite (IH _ g); [reflexivity | | assumption].
  destruct m; exact Hg.
Qed.

Lemma running_length (g : Callback) (texts : list string) :
  forall (pending : bool) (acc : string),
    List.length (running g pending acc texts) = List.length texts.
Proof.
  induction texts as [|d rest IH]; intros pending acc; cbn;
    [reflexivity | now rewrite IH].
Qed.


Lemma running_messageCalls (g : Callback) (texts : list string) :
  forall (pending : bool) (acc : string),
    messageCalls (running g pending acc texts) = running g pending acc texts.
Proof.
  induction texts as [|d rest IH]; intros pending acc; [reflexivity|].
  unfold messageCalls in *; cbn. now rewrite IH.
Qed.

End Accumulation.

(** ** Completion *)

Section Completion.
Context {JS : Coercions}.

(** No frame touches the message callback, and [close()] keeps it. *)
Lemma messageCallback_kept (event : payload) (m : WebSocketManager) :
  messageCallback (fst (onmessage event m)) = messageCallback m.
Proof.
  pose proof (onmessage_transition event m) as T.
  destruct (onmessage event m) as [m1 l1]; cbn [fst snd] in *.
  destruct T; destruct m; reflexivity.
Qed.

(** The calls of [onComplete] made by one frame, and the one still owed
    afterwards, add up to the one owed before. *)
Lemma step_ledger (event : payload) (m : WebSocketManager) :
  (completions (snd (onmessage event m))
   ++ notify (completionCallback (fst (onmessage event m))) CallComplete)%list
  = notify (completionCallback m) CallComplete.
Proof.
  pose proof (onmessage_transition event m) as T.
  destruct (onmessage event m) as [m1 l1]; cbn [fst snd] in *.
  destruct T;
    destruct m as [[?|] [|] ? [?|] [?|] [?|] ? ? ? ?]; cbn in *;
    congruence.
Qed.

Lemma completion_ledger (events : list payload) :
  forall m : WebSocketManager,
    (completions (snd (deliver events m))
     ++ notify (completionCallback (fst (deliver events m))) CallComplete)%list
    = notify (completionCallback m) CallComplete.
Proof.
  induction events as [|e rest IH]; intros m; [reflexivity|].
  rewrite deliver_cons; cbn [fst snd].
  unfold completions in *. rewrite filter_app, <- app_assoc, IH.
  apply step_ledger.
Qed.

(** [onComplete] is called at most once, whatever arrives. *)
Lemma completion_at_most_once (events : list payload) (m : WebSocketManager) :
  (List.length (completions (snd (deliver events m))) <= 1)%nat.
Proof.
  pose proof (completion_ledger events m) as L.
  apply (f_equal (@List.length effect)) in L. rewrite length_app in L.
  destruct (completionCallback m); cbn in L; lia.
Qed.

(** Once [close()] has dropped the info and completion callbacks, no frame
    reaches either of them. *)
Lemma silent_step (event : payload) (m : WebSocketManager) :
  infoCallback m = None -> completionCallback m = None ->
  infoCallback (fst (onmessage event m)) = None
  /\ completionCallback (fst (onmessage event m)) = None
  /\ filter infoOrComplete (snd (onmessage event m)) = [].
Proof.
  intros Hi Hc. pose proof (onmessage_transition event m) as T.
  destruct (onmessage event m) as [m1 l1]; cbn [fst snd] in *.
  destruct T;
    destruct m as [[?|] [|] ? [?|] ? ? ? ? ? ?]; cbn in *; subst;
    repeat split; congruence.
Qed.

Lemma silent_run (events : list payload) :
  forall m : WebSocketManager,
    infoCallback m = None -> completionCallback m = None ->
    filter infoOrComplete (snd (deliver events m)) = [].
Proof.
  induction events as [|e rest IH]; intros m Hi Hc; [reflexivity|].
  destruct (silent_step e m Hi Hc) as (Hi1 & Hc1 & Hl).
  rewrite deliver_cons; cbn [snd]. now rewrite filter_app, Hl, IH.
Qed.

(** A frame that calls [onComplete] calls nothing but [ws.close()] after it
    and leaves the info and completion callbacks cleared; a frame that does
    not call it leaves no completion in its log. *)
Lemma step_completion (event : payload) (m : WebSocketManager) :
  (completions (snd (onmessage event m)) = []
   /\ forall rest, afterCompletion (snd (onmessage event m) ++ rest)
                   = afterCompletion rest)
  \/ (infoCallback (fst (onmessage event m)) = None
      /\ completionCallback (fst (onmessage event m)) = None
      /\ forall rest,
           filter infoOrComplete
             (afterCompletion (snd (onmessage event m) ++ rest))
           = filter infoOrComplete rest).
Proof.
  pose proof (onmessage_transition event m) as T.
  destruct (onmessage event m) as [m1 l1]; cbn [fst snd] in *.
  destruct T;
    destruct m as [[?|] [|] ? [?|] ? [?|] ? ? ? ?]; cbn in *;
    first [ left; split; [reflexivity | intros; reflexivity]
          | right; repeat split; intros; reflexivity ].
Qed.

(** X30.  What the code does guarantee about the end of a turn: after the first
    call of [onComplete] there is no call of [onInfo] and no second call of
    [onComplete]. *)
Lemma after_completion_silent (events : list payload) :
  forall m : WebSocketManager,
    filter infoOrComplete (afterCompletion (snd (deliver events m))) = [].
Proof.
  induction events as [|e rest IH]; intros m; [reflexivity|].
  rewrite deliver_cons; cbn [snd].
  destruct (step_completion e m) as [[_ H] | (Hi & Hc & H)]; rewrite H.
  - apply IH.
  - now apply silent_run.
Qed.

(** Why the end of a turn rests on the socket: [close()] clears
    [infoCallback] and [completionCallback] but not [messageCallback], so a
    content delta handed to the handler after [messageStop] would still be
    reported.  A socket hands over none once [ws.close()] has been called
    (see [receive]). *)
Remark message_after_completion :
  let log :=
    snd (deliver
           (map encode [MessageStart; ContentDelta "Hi"; MessageStop;
                        ContentDelta "late"]) turn) in
  callbacks log
  = [CallMessage 1 (JStr "Hi") false; CallComplete 3;
     CallMessage 1 (JStr "late") false]
  /\ messageCalls (afterCompletion log) = [CallMessage 1 (JStr "late") false].
Proof. split; reflexivity. Qed.

(** C4 (idempotent completion).  With a completion callback registered, a
    stream that ends with [messageStop] calls it exactly once, whatever
    payloads come before: legacy frames, earlier [messageStop]s, frames that
    do not parse. *)
Theorem completion_exactly_once (before : list payload) (m : WebSocketManager)
  (c : Callback) :
  completionCallback m = Some c ->
  completions (snd (deliver (before ++ [encode MessageStop]) m))
  = [CallComplete c].
Proof.
  intros Hc.
  pose proof (completion_ledger (before ++ [encode MessageStop]) m) as L.
  rewrite Hc in L; cbn [notify] in L.
  rewrite deliver_app in L; cbn [fst snd] in L.
  cbn [deliver] in L. rewrite on_MessageStop in L. cbn [fst snd] in L.
  replace (completionCallback (closed (fst (deliver before m)))) with
    (@None Callback) in L by (destruct (fst (deliver before m)); reflexivity).
  cbn [notify] in L. rewrite app_nil_r in L.
  rewrite deliver_app; cbn [snd]. cbn [deliver]. rewrite on_MessageStop.
  exact L.
Qed.

End Completion.

Lemma completion_exactly_once_witness :
  completionCallback turn = Some 3
  /\ completions
       (snd (deliver (JS := throwingCoercions)
               ([encode (Legacy "old"); Unparseable; encode MessageStop;
                 encode (ContentDelta "x")] ++ [encode MessageStop]) turn))
     = [CallComplete 3].
Proof.
  split; [reflexivity|].
  exact (completion_exactly_once (JS := throwingCoercions)
           [encode (Legacy "old"); Unparseable; encode MessageStop;
            encode (ContentDelta "x")] turn 3 eq_refl).
Defined.

(** ** Frames the handler passes over *)

Section Tolerance.
Context {JS : Coercions}.

Lemma passedOver_dropped (m : WebSocketManager) (event : payload) :
  passedOver m event -> onmessage event m = (m, []).
Proof.
  destruct event as [|data]; [reflexivity|].
  destruct data as [| b | n | s | items | members]; try reflexivity.
  cbn [passedOver recognized topMessage]. intros [Hrec Hmsg].
  repeat (apply orb_false_iff in Hrec; destruct Hrec as [Hrec ?]).
  unfold onmessage, handleStreamingMessage. cbn [prop]. rewrite bind_ret.
  repeat match goal with H : strictEq _ _ = false |- _ => rewrite H; clear H end.
  rewrite bind_ret.
  destruct m as [? ? ? [g|] ? ? ? ? ? ?]; cbn in Hmsg |- *;
    destruct (member "message" members) as [v|]; cbn; try reflexivity.
  destruct Hmsg as [Hmsg|Hmsg]; [|discriminate].
  cbn in Hmsg. unfold value in *. rewrite Hmsg. reflexivity.
Qed.

(** C5 (malformed tolerance), as the code has it.  A payload that does not
    parse, or that parses, carries none of the five type tags and does not
    fall to the legacy branch (no truthy top-level [message], or no message
    callback registered), changes nothing when it is put between two frames:
    the log of calls and the final state are those of the two frames alone. *)
Theorem malformed_tolerance (m : WebSocketManager) (f1 f2 : Frame)
  (inserted : payload) :
  passedOver m inserted ->
  deliver [encode f1; inserted; encode f2] m
  = deliver [encode f1; encode f2] m.
Proof.
  intros Hp.
  assert (Hp1 : passedOver (fst (onmessage (encode f1) m)) inserted).
  { destruct inserted as [|data]; [exact I|].
    cbn [passedOver] in *. now rewrite messageCallback_kept. }
  rewrite (deliver_cons (encode f1) [inserted; encode f2]).
  rewrite (deliver_cons inserted [encode f2]).
  rewrite (passedOver_dropped _ _ Hp1). cbn [fst snd app].
  now rewrite (deliver_cons (encode f1) [encode f2]).
Qed.

End Tolerance.

Lemma malformed_tolerance_witness :
  passedOver turn (Parsed (JObj [("type", JStr "ping"); ("message", JStr "")]))
  /\ deliver (JS := throwingCoercions)
       [encode (ContentDelta "a");
        Parsed (JObj [("type", JStr "ping"); ("message", JStr "")]);
        encode MessageStop] turn
     = deliver (JS := throwingCoercions)
         [encode (ContentDelta "a"); encode MessageStop] turn.
Proof.
  assert (H : passedOver turn
                (Parsed (JObj [("type", JStr "ping"); ("message", JStr "")]))).
  { split; [reflexivity | left; reflexivity]. }
  split; [exact H|].
  exact (malformed_tolerance (JS := throwingCoercions) turn (ContentDelta "a")
           MessageStop _ H).
Defined.

(** C5 as the spec words it fails: a payload with an unknown type tag and a
    top-level [message] is taken for a legacy frame, so [onMessage] and
    [onComplete] are called and the session is closed. *)
Lemma unknown_type_with_message_is_delivered :
  ~ (forall (JS : Coercions) (m : WebSocketManager) (f1 f2 : Frame)
            (inserted : payload),
        unparseableOrUnknown inserted ->
        callbacks (snd (deliver [encode f1; inserted; encode f2] m))
        = callbacks (snd (deliver [encode f1; encode f2] m))).
Proof.
  intros H.
  assert (U : unparseableOrUnknown
                (Parsed (JObj [("type", JStr "status"); ("message", JStr "X")]))).
  { split; [discriminate | reflexivity]. }
  specialize (H throwingCoercions turn MessageStart MessageStop _ U).
  discriminate H.
Qed.

(** ** Legacy frames *)

Section LegacyFrames.
Context {JS : Coercions}.

(** C6 (legacy short-circuit), as the code has it.  For a non-empty string
    [X], with message and completion callbacks registered, the frame
    [{ "message": X }] calls [onMessage(X, false)], then [onComplete()], and
    then closes: [ws.close()] is called when the manager is connected, and
    the manager is left as [close()] leaves it. *)
Theorem legacy_short_circuit (X : string) (m : WebSocketManager)
  (g c : Callback) :
  X <> "" ->
  messageCallback m = Some g ->
  completionCallback m = Some c ->
  onmessage (encode (Legacy X)) m
  = (closed m,
     ([CallMessage g (JStr X) false; CallComplete c] ++ closeLog m)%list).
Proof.
  intros HX Hg Hc. rewrite (on_Legacy X m g HX Hg). now rewrite Hc.
Qed.

End LegacyFrames.

Lemma legacy_short_circuit_witness :
  messageCallback turn = Some 1
  /\ onmessage (JS := throwingCoercions) (encode (Legacy "X")) turn
     = (closed turn,
        [CallMessage 1 (JStr "X") false; CallComplete 3; WsClose]).
Proof.
  split; [reflexivity|].
  refine (legacy_short_circuit (JS := throwingCoercions) "X" turn 1 3 _
            eq_refl eq_refl).
  discriminate.
Defined.

(** C6 for every string fails at the empty one: [data.message] is then falsy
    and the frame is passed over. *)
Lemma legacy_empty_message_is_ignored :
  ~ (forall (JS : Coercions) (X : string) (m : WebSocketManager) (g c : Callback),
        freshAccumulator m ->
        messageCallback m = Some g ->
        completionCallback m = Some c ->
        callbacks (snd (onmessage (encode (Legacy X)) m))
        = [CallMessage g (JStr X) false; CallComplete c]).
Proof.
  intros H.
  specialize (H throwingCoercions "" turn 1 3
                (conj eq_refl (conj eq_refl eq_refl)) eq_refl eq_refl).
  discriminate H.
Qed.

(** ** Sending and closing *)

(** C7 (send while not connected).  When [isConnected] is false,
    [sendMessage] rejects with the error 'WebSocket is not connected' before
    doing anything else: nothing goes to the socket, and the manager (with its
    accumulator and conversation identity) and the browser's storage are
    exactly as before. *)
Theorem send_not_connected (msg msgs info : json) (m : WebSocketManager)
  (b : Browser) :
  isConnected m = false ->
  sendMessage msg msgs info m b
  = (Rejected "WebSocket is not connected", m, b, []).
Proof.
  intros H. unfold sendMessage. now rewrite H.
Qed.

Lemma send_not_connected_witness :
  isConnected newManager = false
  /\ sendMessage (JStr "hello") (JArr []) JNull newManager quietBrowser
     = (Rejected "WebSocket is not connected", newManager, quietBrowser, []).
Proof.
  split; [reflexivity|].
  exact (send_not_connected (JStr "hello") (JArr []) JNull newManager
           quietBrowser eq_refl).
Defined.

Section Closing.
Context {JS : Coercions}.

(** C8 ([close()]).  In every state [close()] returns without throwing; it
    leaves [currentMessage] empty and [hasContent] and
    [shouldCreateNewMessage] false, and the conversation identity as it was.
    Called again on the state it left, it returns that same state. *)
Theorem close_idempotent (m : WebSocketManager) :
  exists (m1 : WebSocketManager) (log1 log2 : list effect),
    close m = Returned tt m1 log1
    /\ currentMessage m1 = ""
    /\ hasContent m1 = false
    /\ shouldCreateNewMessage m1 = false
    /\ conversationId m1 = conversationId m
    /\ close m1 = Returned tt m1 log2.
Proof.
  exists (closed m), (closeLog m), (closeLog (closed m)).
  rewrite !close_returns.
  destruct m; repeat split; reflexivity.
Qed.

End Closing.

(** ** Conversation identity *)

Arguments replaceXY : simpl never.
Arguments generateConversationId : simpl never.

Lemma generated_isSet (b : Browser) :
  isSet (Some (fst (generateConversationId b))) = true.
Proof.
  unfold generateConversationId.
  destruct (replaceXY _ (random b) 0) as [uuid n]. reflexivity.
Qed.

Lemma isSet_Some (id : string) : isSet (Some id) = true <-> id <> "".
Proof.
  cbn. destruct (String.eqb_spec id ""); cbn; split; congruence.
Qed.

Lemma set_conversationId_same (m : WebSocketManager) :
  set_conversationId (conversationId m) m = m.
Proof. destruct m; reflexivity. Qed.

Lemma get_held (m : WebSocketManager) (b : Browser) (id : string) :
  conversationId m = Some id -> id <> "" ->
  getConversationId m b = (Some id, m, b).
Proof.
  intros Hid Hne. unfold getConversationId. rewrite Hid.
  apply isSet_Some in Hne. now rewrite Hne.
Qed.

Lemma get_recovered (m : WebSocketManager) (b : Browser) (id : string) :
  isSet (conversationId m) = false ->
  getItemThrows b = false -> item b = Some id -> id <> "" ->
  getConversationId m b = (Some id, set_conversationId (Some id) m, b).
Proof.
  intros Hset Hget Hitem Hne. unfold getConversationId.
  rewrite Hset, Hget, Hitem. apply isSet_Some in Hne. rewrite Hne.
  cbn [negb]. destruct m; reflexivity.
Qed.

Lemma get_generated (m : WebSocketManager) (b : Browser) :
  isSet (conversationId m) = false ->
  getItemThrows b = true \/ isSet (item b) = false ->
  getConversationId m b
  = (Some (fst (generateConversationId b)),
     set_conversationId (Some (fst (generateConversationId b))) m,
     setItem (fst (generateConversationId b)) (snd (generateConversationId b))).
Proof.
  intros Hset Hno. unfold getConversationId. rewrite Hset. cbn [negb].
  replace (isSet (if getItemThrows b then None else item b)) with false
    by (destruct Hno as [-> | Hi]; [reflexivity |
        destruct (getItemThrows b); [reflexivity | now rewrite Hi]]).
  unfold startNewConversation.
  destruct (generateConversationId b) as [id b0]. destruct m; reflexivity.
Qed.

Lemma generate_keeps_storage (b : Browser) :
  item (snd (generateConversationId b)) = item b
  /\ setItemThrows (snd (generateConversationId b)) = setItemThrows b.
Proof.
  unfold generateConversationId.
  destruct (replaceXY _ (random b) 0). split; reflexivity.
Qed.

(** C9 (conversation identity).  [getConversationId] returns the identity the
    manager holds afterwards, and that identity is set (neither [null] nor
    empty).  It is the one held before when one was set, with manager and
    storage untouched; otherwise the one read from storage when the read
    succeeds and finds one; otherwise a freshly generated one, which is
    written to storage unless the write throws.  No failure of the storage
    makes the call fail.  Every later call returns the same identity and
    changes nothing, whatever the storage does meanwhile, until
    [clearConversation] sets the identity to [null] and removes the stored
    copy (unless the removal throws). *)
Theorem conversation_identity (m : WebSocketManager) (b : Browser) :
  exists (id : string) (m1 : WebSocketManager) (b1 : Browser),
    getConversationId m b = (Some id, m1, b1)
    /\ id <> ""
    /\ m1 = set_conversationId (Some id) m
    /\ (isSet (conversationId m) = true ->
        conversationId m = Some id /\ m1 = m /\ b1 = b)
    /\ (isSet (conversationId m) = false ->
        getItemThrows b = false -> isSet (item b) = true ->
        item b = Some id /\ b1 = b)
    /\ (isSet (conversationId m) = false ->
        getItemThrows b = true \/ isSet (item b) = false ->
        id = fst (generateConversationId b)
        /\ item b1 = (if setItemThrows b then item b else Some id))
    /\ (forall b' : Browser, getConversationId m1 b' = (Some id, m1, b'))
    /\ (forall b' : Browser,
          conversationId (fst (clearConversation m1 b')) = None
          /\ (removeItemThrows b' = false ->
              item (snd (clearConversation m1 b')) = None)).
Proof.
  assert (Hclear : forall (m1 : WebSocketManager) (b' : Browser),
             conversationId (fst (clearConversation m1 b')) = None
             /\ (removeItemThrows b' = false ->
                 item (snd (clearConversation m1 b')) = None)).
  { intros m1 b'. split; [reflexivity|]. cbn [clearConversation snd].
    unfold removeItem. now intros ->. }
  destruct (isSet (conversationId m)) eqn:Hset.
  - (* an identity is held *)
    destruct (conversationId m) as [id|] eqn:Hid; [|discriminate].
    assert (Hne : id <> "") by now apply isSet_Some.
    assert (Hm : set_conversationId (Some id) m = m)
      by (rewrite <- Hid; apply set_conversationId_same).
    exists id, m, b.
    split; [now apply get_held|]. split; [assumption|].
    split; [now rewrite Hm|]. split; [auto|].
    split; [discriminate|]. split; [discriminate|].
    split; [intros b'; now apply get_held | intros b'; apply Hclear].
  - destruct (getItemThrows b) eqn:Hget;
      [| destruct (isSet (item b)) eqn:Hitem].
    + (* the read throws: generated *)
      pose proof (get_generated m b Hset (or_introl Hget)) as G.
      pose proof (generated_isSet b) as S. apply isSet_Some in S.
      destruct (generate_keeps_storage b) as [Hi0 Hs0].
      set (id := fst (generateConversationId b)) in *.
      exists id, (set_conversationId (Some id) m), (setItem id (snd (generateConversationId b))).
      split; [exact G|]. split; [assumption|]. split; [reflexivity|].
      split; [discriminate|]. split; [discriminate|].
      split.
      { intros _ _. split; [reflexivity|]. unfold setItem. rewrite Hs0.
        destruct (setItemThrows b); [exact Hi0 | reflexivity]. }
      split; [intros b'; apply get_held; [destruct m; reflexivity | assumption]
             | intros b'; apply Hclear].
    + (* recovered from storage *)
      destruct (item b) as [id|] eqn:Hid; [|discriminate].
      assert (Hne : id <> "") by now apply isSet_Some.
      exists id, (set_conversationId (Some id) m), b.
      split; [now apply get_recovered|]. split; [assumption|].
      split; [reflexivity|]. split; [discriminate|].
      split; [auto|].
      split; [intros _ [?|?]; discriminate|].
      split; [intros b'; apply get_held; [destruct m; reflexivity | assumption]
             | intros b'; apply Hclear].
    + (* nothing stored: generated *)
      pose proof (get_generated m b Hset (or_intror Hitem)) as G.
      pose proof (generated_isSet b) as S. apply isSet_Some in S.
      destruct (generate_keeps_storage b) as [Hi0 Hs0].
      set (id := fst (generateConversationId b)) in *.
      exists id, (set_conversationId (Some id) m), (setItem id (snd (generateConversationId b))).
      split; [exact G|]. split; [assumption|]. split; [reflexivity|].
      split; [discriminate|]. split; [intros _ _ ?; discriminate|].
      split.
      { intros _ _. split; [reflexivity|]. unfold setItem. rewrite Hs0.
        destruct (setItemThrows b); [exact Hi0 | reflexivity]. }
      split; [intros b'; apply get_held; [destruct m; reflexivity | assumption]
             | intros b'; apply Hclear].
Qed.

(** ** The accumulator invariant *)

Section Invariant.
Context {JS : Coercions}.

Lemma coherent_closed (m : WebSocketManager) : coherent (closed m).
Proof.
  destruct m; split; cbn; [split|]; intros; congruence.
Qed.

Lemma coherent_step (event : payload) (m : WebSocketManager) :
  coercedDelta event = false -> coherent m ->
  coherent (fst (onmessage event m)).
Proof.
  intros Hplain Hm. pose proof (onmessage_transition event m) as T.
  destruct (onmessage event m) as [m1 l1]; cbn [fst snd] in *.
  destruct T as [ | | t Ht | Hc Ht | | g v Hg | g v Hg];
    try assumption; try apply coherent_closed.
  - destruct m; split; cbn; [split|]; intros; congruence.
  - destruct Ht as [Ht|Ht]; [|congruence].
    pose proof (append_nonempty (currentMessage m) t Ht).
    destruct m; split; cbn in *; [split|]; intros; congruence.
  - destruct m; split; cbn; [split|]; intros; try congruence. now split.
Qed.

(** C10 (accumulator invariant).  From a manager whose accumulator is as the
    constructor leaves it, every state reached by handling frames (delta
    texts being strings) and by calls of [close()] has [hasContent] true
    exactly when [currentMessage] is non-empty, and has
    [shouldCreateNewMessage] true only with [currentMessage] empty and
    [hasContent] false; so the guard of the break token,
    [hasContent && currentMessage.length > 0], has the value of [hasContent]
    alone. *)
Theorem accumulator_invariant (start m : WebSocketManager) :
  freshAccumulator start ->
  reachable start m ->
  (hasContent m = true <-> currentMessage m <> "")
  /\ (shouldCreateNewMessage m = true ->
      currentMessage m = "" /\ hasContent m = false)
  /\ hasContent m && (0 <? String.length (currentMessage m))%nat
     = hasContent m.
Proof.
  intros (Ht & Hc & Hp) R.
  assert (C : coherent m).
  { induction R as [| m event R IH Hplain | m m1 log R IH Hclose].
    - split; [split|]; intros; congruence.
    - now apply coherent_step.
    - rewrite close_returns in Hclose. inversion Hclose; subst.
      apply coherent_closed. }
  destruct C as [C1 C2]. split; [exact C1|]. split; [exact C2|].
  destruct (hasContent m); [|reflexivity].
  destruct (currentMessage m); [|reflexivity].
  exfalso. now apply (proj1 C1).
Qed.

End Invariant.

Lemma accumulator_invariant_witness :
  let m := fst (onmessage (JS := throwingCoercions) (encode BreakToken)
                  (fst (onmessage (JS := throwingCoercions)
                          (encode (ContentDelta "Thinking...")) newManager))) in
  shouldCreateNewMessage m = true
  /\ hasContent m && (0 <? String.length (currentMessage m))%nat
     = hasContent m.
Proof.
  intros m. split; [reflexivity|].
  refine (proj2 (proj2 (accumulator_invariant (JS := throwingCoercions)
                          newManager m _ _))).
  - repeat split.
  - apply r_frame; [apply r_frame; [apply r_start | reflexivity] | reflexivity].
Defined.

(** The restriction to delta texts that are strings is needed: a text that
    is the array [[""]] passes the guard (it is truthy and has length one) and
    adds the empty string, so [hasContent] is set while [currentMessage] stays
    empty. *)
Remark coerced_delta_without_text :
  let m :=
    fst (onmessage (JS := arraysOfStrings)
           (tagged "contentBlockDelta"
              [("data", JObj [("delta", JObj [("text", JArr [JStr ""])])])])
           newManager) in
  hasContent m = true /\ currentMessage m = "".
Proof. split; reflexivity. Qed.

(** ** The scenarios of the protocol, run *)

Section Scenarios.
Context {JS : Coercions}.

Example turn_state :
  isConnected turn = true /\ ws turn = Some Socket
  /\ messageCallback turn = Some 1 /\ infoCallback turn = Some 2
  /\ completionCallback turn = Some 3 /\ freshAccumulator turn
  /\ conversationId turn = Some "conv_01234567-89ab-4cde-b012-3456789abcde".
Proof. repeat split. Qed.

Example scenario_A :
  callbacks
    (snd (deliver
            (map encode [MessageStart; ContentDelta "Hi"; ContentDelta " there";
                         MessageStop]) turn))
  = [CallMessage 1 (JStr "Hi") false; CallMessage 1 (JStr "Hi there") false;
     CallComplete 3].
Proof. reflexivity. Qed.

Example scenario_C :
  callbacks (snd (deliver (map encode [BreakToken; MessageStop]) turn))
  = [CallComplete 3].
Proof. reflexivity. Qed.

Example scenario_D :
  fst (fst (fst (sendMessageAndWaitForResponse (JStr "hello") (JArr [])
                   (Some 1) (Some 2) (Some 3) JNull false newManager
                   quietBrowser)))
  = Rejected "WebSocket error".
Proof. reflexivity. Qed.

Example info_then_answer :
  snd (deliver (map encode [MessageStart; Info "Searching"; ContentDelta "Hi";
                            MessageStop]) turn)
  = [CallInfo 2 (JStr "Searching"); CallMessage 1 (JStr "Hi") false;
     CallComplete 3; WsClose].
Proof. reflexivity. Qed.

End Scenarios.

Example identity_recovered :
  getConversationId newManager
    (mkBrowser (Some "conv_stored") false false false (fun _ => 0%N) false false)
  = (Some "conv_stored", set_conversationId (Some "conv_stored") newManager,
     mkBrowser (Some "conv_stored") false false false (fun _ => 0%N) false false).
Proof. reflexivity. Qed.

Example identity_generated_in_memory :
  let b := mkBrowser None true true false (fun _ => 10%N) false false in
  fst (fst (getConversationId newManager b))
  = Some "conv_aaaaaaaa-aaaa-4aaa-aaaa-aaaaaaaaaaaa"
  /\ item (snd (getConversationId newManager b)) = None.
Proof. split; reflexivity. Qed.

(** * Further properties of the manager *)

(** ** Generated identifiers *)

Lemma hexDigit_isHex (v : N) : (v < 16)%N -> isHex (hexDigit v) = true.
Proof.
  intros H. unfold hexDigit.
  assert (Hn : (N.to_nat v < 16)%nat) by lia.
  revert Hn. generalize (N.to_nat v) as n. intros n Hn.
  do 16 (destruct n as [|n]; [reflexivity|]). lia.
Qed.

Lemma hexDigit_isVariant (r : N) :
  isVariant (hexDigit (N.lor (N.land r 3) 8)) = true.
Proof.
  assert (H : (N.land r 3 < 4)%N).
  { change 3%N with (N.ones 2). rewrite N.land_ones.
    apply N.mod_upper_bound. discriminate. }
  destruct (N.land r 3) as [|[[?|?|]|[?|?|]|]]; try reflexivity; lia.
Qed.

Lemma replaceXY_cons (c : ascii) (rest : string) (rand : nat -> N)
  (drawn : nat) :
  replaceXY (String c rest) rand drawn
  = if Ascii.eqb c "x" || Ascii.eqb c "y" then
      (String
         (hexDigit (if Ascii.eqb c "x" then N.modulo (rand drawn) 16
                    else N.lor (N.land (N.modulo (rand drawn) 16) 3) 8))
         (fst (replaceXY rest rand (S drawn))),
       snd (replaceXY rest rand (S drawn)))
    else (String c (fst (replaceXY rest rand drawn)),
          snd (replaceXY rest rand drawn)).
Proof.
  change (replaceXY (String c rest) rand drawn)
    with (if Ascii.eqb c "x" || Ascii.eqb c "y" then
            let r := N.modulo (rand drawn) 16 in
            let v := if Ascii.eqb c "x" then r else N.lor (N.land r 3) 8 in
            let (out, n) := replaceXY rest rand (S drawn) in
            (String (hexDigit v) out, n)
          else
            let (out, n) := replaceXY rest rand drawn in
            (String c out, n)).
  destruct (Ascii.eqb c "x" || Ascii.eqb c "y").
  - cbv zeta. destruct (replaceXY rest rand (S drawn)); reflexivity.
  - destruct (replaceXY rest rand drawn); reflexivity.
Qed.

Lemma replaceXY_conforms (template : string) :
  forall (rand : nat -> N) (drawn : nat),
    conformsTo template (fst (replaceXY template rand drawn)) = true.
Proof.
  induction template as [|c rest IH]; intros rand drawn; [reflexivity|].
  rewrite replaceXY_cons.
  destruct (Ascii.eqb c "x") eqn:Ex; cbn [orb fst conformsTo].
  - rewrite Ex, IH, hexDigit_isHex; [reflexivity|].
    apply N.mod_upper_bound. discriminate.
  - destruct (Ascii.eqb c "y") eqn:Ey; cbn [fst conformsTo]; rewrite Ex, IH.
    + now rewrite hexDigit_isVariant.
    + now rewrite Ascii.eqb_refl.
Qed.

Lemma conformsTo_length (template : string) :
  forall s : string,
    conformsTo template s = true -> String.length s = String.length template.
Proof.
  induction template as [|c rest IH]; intros [|d s] H; cbn in *;
    try discriminate; [reflexivity|].
  apply andb_true_iff in H. destruct H as [_ H]. now rewrite (IH s H).
Qed.

Lemma replaceXY_drawn (template : string) :
  forall (rand : nat -> N) (drawn : nat),
    snd (replaceXY template rand drawn) = (drawn + placeholders template)%nat.
Proof.
  induction template as [|c rest IH]; intros rand drawn.
  - unfold replaceXY, placeholders; cbn [snd]. lia.
  - rewrite replaceXY_cons. cbn [placeholders].
    destruct (Ascii.eqb c "x" || Ascii.eqb c "y"); cbn [snd]; rewrite IH; lia.
Qed.

(** X1.  Whatever the random source yields, a generated identifier is
    [conv_] followed by 36 characters in the layout of a version 4 UUID:
    hyphens after the 8th, 12th, 16th and 20th digit, the digit [4] first in
    the third group, one of [8], [9], [a], [b] first in the fourth, lower-case
    hexadecimal digits elsewhere; it has 41 characters, and 31 random values
    are consumed. *)
Theorem generated_identifier_format (b : Browser) :
  exists uuid : string,
    fst (generateConversationId b) = "conv_" ++ uuid
    /\ conformsTo "xxxxxxxx-xxxx-4xxx-yxxx-xxxxxxxxxxxx" uuid = true
    /\ String.length (fst (generateConversationId b)) = 41%nat
    /\ forall i : nat,
         random (snd (generateConversationId b)) i = random b (31 + i).
Proof.
  unfold generateConversationId.
  pose proof (replaceXY_conforms "xxxxxxxx-xxxx-4xxx-yxxx-xxxxxxxxxxxx"
                (random b) 0) as C.
  pose proof (replaceXY_drawn "xxxxxxxx-xxxx-4xxx-yxxx-xxxxxxxxxxxx"
                (random b) 0) as D.
  destruct (replaceXY _ (random b) 0) as [uuid n]; cbn [fst snd] in *.
  exists uuid. split; [reflexivity|]. split; [exact C|]. split.
  - cbn [String.append String.length]. rewrite (conformsTo_length _ _ C).
    reflexivity.
  - intros i. subst n. reflexivity.
Qed.

(** ** The identity across calls *)

(** What [getConversationId] always yields: a set identity, held by the
    manager afterwards, with nothing else of the manager changed and the
    transport flags of the browser as they were. *)
Lemma get_shape (m : WebSocketManager) (b : Browser) :
  exists (id : string) (b1 : Browser),
    getConversationId m b = (Some id, set_conversationId (Some id) m, b1)
    /\ id <> "" /\ sendThrows b1 = sendThrows b.
Proof.
  destruct (isSet (conversationId m)) eqn:Hset.
  - destruct (conversationId m) as [id|] eqn:Hid; [|discriminate].
    assert (Hne : id <> "") by now apply isSet_Some.
    exists id, b. rewrite (get_held m b id Hid Hne).
    rewrite <- Hid, set_conversationId_same. now rewrite Hid.
  - assert (G : forall H : getItemThrows b = true \/ isSet (item b) = false,
               exists (id : string) (b1 : Browser),
                 getConversationId m b
                 = (Some id, set_conversationId (Some id) m, b1)
                 /\ id <> "" /\ sendThrows b1 = sendThrows b).
    { intros H. rewrite (get_generated m b Hset H).
      pose proof (generated_isSet b) as S. apply isSet_Some in S.
      eexists _, _. split; [reflexivity|]. split; [exact S|].
      unfold generateConversationId, setItem.
      destruct (replaceXY _ (random b) 0); cbn [fst snd].
      destruct (setItemThrows _); reflexivity. }
    destruct (getItemThrows b) eqn:Hget; [now apply G; left|].
    destruct (isSet (item b)) eqn:Hitem; [|now apply G; right].
    destruct (item b) as [id|] eqn:Hid; [|discriminate].
    assert (Hne : id <> "") by now apply isSet_Some.
    exists id, b. now rewrite (get_recovered m b id Hset Hget Hid Hne).
Qed.

(** X2.  An identity set with [setConversationId] is the one
    [getConversationId] returns from then on, whatever the storage does, and
    it is in the storage unless the write threw. *)
Theorem set_then_get (id : string) (m : WebSocketManager) (b b' : Browser) :
  id <> "" ->
  getConversationId (fst (setConversationId id m b)) b'
  = (Some id, fst (setConversationId id m b), b')
  /\ (setItemThrows b = false ->
      item (snd (setConversationId id m b)) = Some id).
Proof.
  intros Hne. split.
  - apply get_held; [destruct m; reflexivity | assumption].
  - intros Hs. cbn [setConversationId snd]. unfold setItem. now rewrite Hs.
Qed.

Lemma set_then_get_witness :
  "conv_abc" <> ""
  /\ fst (fst (getConversationId
                 (fst (setConversationId "conv_abc" newManager quietBrowser))
                 quietBrowser))
     = Some "conv_abc".
Proof.
  assert (H : "conv_abc" <> "") by discriminate.
  split; [exact H|].
  exact (f_equal (fun r => fst (fst r))
           (proj1 (set_then_get "conv_abc" newManager quietBrowser
                     quietBrowser H))).
Defined.

(** X3.  The empty string does not count as an identity: after
    [setConversationId('')] has written it, the next [getConversationId]
    generates a fresh identity instead of returning the empty one. *)
Theorem empty_identity_is_unset (m : WebSocketManager) (b : Browser) :
  setItemThrows b = false ->
  let m1 := fst (setConversationId "" m b) in
  let b1 := snd (setConversationId "" m b) in
  fst (fst (getConversationId m1 b1)) = Some (fst (generateConversationId b1))
  /\ fst (generateConversationId b1) <> "".
Proof.
  intros Hs m1 b1.
  assert (Hitem : item b1 = Some "").
  { subst b1. cbn [setConversationId snd]. unfold setItem. now rewrite Hs. }
  split.
  - rewrite get_generated; [reflexivity | destruct m; reflexivity |].
    right. now rewrite Hitem.
  - apply isSet_Some, generated_isSet.
Qed.

Lemma empty_identity_is_unset_witness :
  setItemThrows quietBrowser = false
  /\ fst (fst (getConversationId
                 (fst (setConversationId "" newManager quietBrowser))
                 (snd (setConversationId "" newManager quietBrowser))))
     = Some "conv_01234567-89ab-4cde-b012-3456789abcde".
Proof.
  split; [reflexivity|].
  exact (proj1 (empty_identity_is_unset newManager quietBrowser eq_refl)).
Defined.

(** X4.  An identity started with [startNewConversation] survives a reload
    of the page: when the write succeeded, a manager that holds no identity
    and reads the same storage gets the same identity back. *)
Theorem identity_survives_reload (m reloaded : WebSocketManager)
  (b b2 : Browser) :
  setItemThrows b = false ->
  getItemThrows b2 = false ->
  item b2 = item (snd (startNewConversation m b)) ->
  isSet (conversationId reloaded) = false ->
  fst (fst (getConversationId reloaded b2))
  = fst (fst (startNewConversation m b)).
Proof.
  intros Hs Hg Hitem Hnone.
  unfold startNewConversation in *.
  pose proof (generated_isSet b) as S. apply isSet_Some in S.
  destruct (generate_keeps_storage b) as [_ Hs0].
  destruct (generateConversationId b) as [id b0]; cbn [fst snd] in *.
  unfold setItem in Hitem. rewrite Hs0, Hs in Hitem. cbn in Hitem.
  now rewrite (get_recovered reloaded b2 id Hnone Hg Hitem S).
Qed.

Lemma identity_survives_reload_witness :
  setItemThrows quietBrowser = false
  /\ fst (fst (getConversationId newManager
                 (snd (startNewConversation newManager quietBrowser))))
     = fst (fst (startNewConversation newManager quietBrowser)).
Proof.
  split; [reflexivity|].
  exact (identity_survives_reload newManager newManager quietBrowser
           (snd (startNewConversation newManager quietBrowser))
           eq_refl eq_refl eq_refl eq_refl).
Defined.

(** X5.  After [clearConversation] has removed the stored copy, the next
    [getConversationId] generates a new identity. *)
Theorem clear_then_get_generates (m : WebSocketManager) (b : Browser) :
  removeItemThrows b = false ->
  let m1 := fst (clearConversation m b) in
  let b1 := snd (clearConversation m b) in
  fst (fst (getConversationId m1 b1)) = Some (fst (generateConversationId b1)).
Proof.
  intros Hr m1 b1.
  rewrite get_generated; [reflexivity | destruct m; reflexivity |].
  right. subst b1. cbn [clearConversation snd]. unfold removeItem.
  now rewrite Hr.
Qed.

Lemma clear_then_get_generates_witness :
  removeItemThrows quietBrowser = false
  /\ fst (fst (getConversationId (fst (clearConversation turn quietBrowser))
                 (snd (clearConversation turn quietBrowser))))
     = Some "conv_01234567-89ab-4cde-b012-3456789abcde".
Proof.
  split; [reflexivity|].
  exact (clear_then_get_generates turn quietBrowser eq_refl).
Defined.

(** X6.  When [removeItem] throws, [clearConversation] clears the manager
    only: the stored copy stays, and the next [getConversationId] that can
    read it brings the cleared identity back. *)
Theorem clear_then_get_recovers (id : string) (m : WebSocketManager)
  (b : Browser) :
  removeItemThrows b = true ->
  getItemThrows b = false ->
  item b = Some id ->
  id <> "" ->
  let m1 := fst (clearConversation m b) in
  let b1 := snd (clearConversation m b) in
  conversationId m1 = None
  /\ fst (fst (getConversationId m1 b1)) = Some id.
Proof.
  intros Hr Hg Hitem Hne m1 b1. split; [reflexivity|].
  assert (Hb : b1 = b).
  { subst b1. cbn [clearConversation snd]. unfold removeItem. now rewrite Hr. }
  rewrite Hb.
  rewrite (get_recovered m1 b id); [reflexivity | reflexivity | | | ];
    assumption.
Qed.

Lemma clear_then_get_recovers_witness :
  let b := mkBrowser (Some "conv_old") false false true (fun _ => 0%N)
             false false in
  removeItemThrows b = true
  /\ fst (fst (getConversationId (fst (clearConversation turn b))
                 (snd (clearConversation turn b))))
     = Some "conv_old".
Proof.
  intros b. split; [reflexivity|].
  refine (proj2 (clear_then_get_recovers "conv_old" turn b eq_refl eq_refl
                   eq_refl _)).
  discriminate.
Defined.

(** ** Sending *)

Lemma sendMessage_connected (msg msgs info : json) (m : WebSocketManager)
  (b : Browser) (w : WebSocket) :
  isConnected m = true -> ws m = Some w ->
  exists (id : string) (b1 : Browser),
    id <> "" /\ sendThrows b1 = sendThrows b
    /\ getConversationId m b = (Some id, set_conversationId (Some id) m, b1)
    /\ sendMessage msg msgs info m b
       = if sendThrows b
         then (Rejected "send", set_conversationId (Some id) m, b1, [])
         else (Resolved, set_conversationId (Some id) m, b1,
               [WsSend (mkPacket "sendMessage" msg msgs id info)]).
Proof.
  intros Hc Hw. destruct (get_shape m b) as (id & b1 & Hget & Hne & Hs).
  exists id, b1. split; [assumption|]. split; [assumption|].
  split; [assumption|].
  unfold sendMessage. rewrite Hc, Hget. cbn [negb].
  replace (ws (set_conversationId (Some id) m)) with (Some w)
    by (destruct m; cbn in *; congruence).
  rewrite Hs. destruct (sendThrows b); reflexivity.
Qed.

(** X7.  On an open connection a send resolves after handing the socket one
    packet with action [sendMessage], the message, the history and the user
    info as given, and a non-empty conversation identity; a second send on
    the same manager carries the same identity, whatever the storage does in
    between, and changes the manager no further. *)
Theorem sends_share_identity (msg msgs info msg' msgs' info' : json)
  (m : WebSocketManager) (b b' : Browser) (w : WebSocket) :
  isConnected m = true -> ws m = Some w ->
  sendThrows b = false -> sendThrows b' = false ->
  exists (id : string) (m1 : WebSocketManager) (b1 : Browser),
    id <> ""
    /\ sendMessage msg msgs info m b
       = (Resolved, m1, b1, [WsSend (mkPacket "sendMessage" msg msgs id info)])
    /\ sendMessage msg' msgs' info' m1 b'
       = (Resolved, m1, b',
          [WsSend (mkPacket "sendMessage" msg' msgs' id info')]).
Proof.
  intros Hc Hw Hs Hs'.
  destruct (sendMessage_connected msg msgs info m b w Hc Hw)
    as (id & b1 & Hne & _ & _ & Hsend).
  rewrite Hs in Hsend.
  exists id, (set_conversationId (Some id) m), b1.
  split; [assumption|]. split; [assumption|].
  unfold sendMessage.
  replace (isConnected (set_conversationId (Some id) m)) with true
    by (destruct m; cbn in *; congruence).
  cbn [negb]. rewrite (get_held _ b' id); [| destruct m; reflexivity | assumption].
  replace (ws (set_conversationId (Some id) m)) with (Some w)
    by (destruct m; cbn in *; congruence).
  now rewrite Hs'.
Qed.

Lemma sends_share_identity_witness :
  isConnected turn = true
  /\ exists (id : string) (m1 : WebSocketManager) (b1 : Browser),
       id <> ""
       /\ sendMessage (JStr "one") (JArr []) JNull turn quietBrowser
          = (Resolved, m1, b1,
             [WsSend (mkPacket "sendMessage" (JStr "one") (JArr []) id JNull)])
       /\ sendMessage (JStr "two") (JArr []) JNull m1 quietBrowser
          = (Resolved, m1, quietBrowser,
             [WsSend (mkPacket "sendMessage" (JStr "two") (JArr []) id JNull)]).
Proof.
  split; [reflexivity|].
  exact (sends_share_identity (JStr "one") (JArr []) JNull (JStr "two")
           (JArr []) JNull turn quietBrowser quietBrowser Socket
           eq_refl eq_refl eq_refl eq_refl).
Defined.

(** ** Whole turns *)

(** X8.  [connect()] resolves at once while an earlier attempt is still
    pending, although the socket is not open; a turn begun in that state is
    therefore rejected by [sendMessage] with 'WebSocket is not connected',
    nothing is sent, and the [catch] leaves the manager closed. *)
Theorem turn_while_connecting (msg msgs info : json)
  (onMessageReceived onInfoReceived onMessageComplete : option Callback)
  (opens : bool) (m : WebSocketManager) (b : Browser) :
  isConnected m = false -> isConnecting m = true ->
  sendMessageAndWaitForResponse msg msgs onMessageReceived onInfoReceived
    onMessageComplete info opens m b
  = (Rejected "WebSocket is not connected",
     closed (registerCallbacks onMessageReceived onInfoReceived
               onMessageComplete m),
     b, []).
Proof.
  intros Hc Hp.
  set (m0 := registerCallbacks onMessageReceived onInfoReceived
               onMessageComplete m).
  assert (Hc0 : isConnected m0 = false)
    by (subst m0; destruct m; cbn in *; congruence).
  assert (Hp0 : isConnecting m0 = true)
    by (subst m0; destruct m; cbn in *; congruence).
  assert (Hl : closeLog m0 = []).
  { unfold closeLog. rewrite Hc0. now destruct (ws m0). }
  unfold sendMessageAndWaitForResponse, connect. fold m0.
  rewrite Hc0, Hp0. cbn [orb]. unfold sendMessage. rewrite Hc0. cbn [negb].
  now rewrite close_returns, Hl.
Qed.

Lemma turn_while_connecting_witness :
  let m := snd (connect newManager quietBrowser) in
  isConnecting m = true
  /\ fst (fst (fst (sendMessageAndWaitForResponse (JStr "hello") (JArr [])
                      (Some 1) (Some 2) (Some 3) JNull true m quietBrowser)))
     = Rejected "WebSocket is not connected".
Proof.
  intros m. split; [reflexivity|].
  exact (f_equal (fun r => fst (fst (fst r)))
           (turn_while_connecting (JStr "hello") (JArr []) JNull (Some 1)
              (Some 2) (Some 3) true m quietBrowser eq_refl eq_refl)).
Defined.

(** Every way a turn can end, by how [connect] and [sendMessage] go. *)
Lemma turn_outcome (msg msgs info : json)
  (onM onI onC : option Callback) (opens : bool) (m : WebSocketManager)
  (b : Browser) :
  let r := sendMessageAndWaitForResponse msg msgs onM onI onC info opens m b in
  (exists (reason : string) (m2 : WebSocketManager) (b2 : Browser),
      r = (Rejected reason, closed m2, b2, closeLog m2)
      /\ messageCallback m2 = onM)
  \/ (exists (id : string) (m2 : WebSocketManager) (b2 : Browser),
        r = (Resolved, m2, b2,
             [WsSend (mkPacket "sendMessage" msg msgs id info)])
        /\ conversationId m2 = Some id /\ id <> ""
        /\ isConnected m2 = true
        /\ messageCallback m2 = onM /\ infoCallback m2 = onI
        /\ completionCallback m2 = onC
        /\ currentMessage m2 = currentMessage m
        /\ hasContent m2 = hasContent m
        /\ shouldCreateNewMessage m2 = shouldCreateNewMessage m).
Proof.
  intros r; subst r. unfold sendMessageAndWaitForResponse.
  set (m0 := registerCallbacks onM onI onC m).
  assert (Hsend : forall m1 : WebSocketManager,
             messageCallback m1 = onM -> infoCallback m1 = onI ->
             completionCallback m1 = onC ->
             currentMessage m1 = currentMessage m ->
             hasContent m1 = hasContent m ->
             shouldCreateNewMessage m1 = shouldCreateNewMessage m ->
             let r := match sendMessage msg msgs info m1 b with
                      | (Resolved, m2, b2, log) => (Resolved, m2, b2, log)
                      | (Rejected reason, m2, b2, log) =>
                          match close m2 with
                          | Returned _ m3 log2 =>
                              (Rejected reason, m3, b2, (log ++ log2)%list)
                          | Thrown m3 log2 =>
                              (Rejected reason, m3, b2, (log ++ log2)%list)
                          end
                      end in
             (exists (reason : string) (m2 : WebSocketManager) (b2 : Browser),
                 r = (Rejected reason, closed m2, b2, closeLog m2)
                 /\ messageCallback m2 = onM)
             \/ (exists (id : string) (m2 : WebSocketManager) (b2 : Browser),
                   r = (Resolved, m2, b2,
                        [WsSend (mkPacket "sendMessage" msg msgs id info)])
                   /\ conversationId m2 = Some id /\ id <> ""
                   /\ isConnected m2 = true
                   /\ messageCallback m2 = onM /\ infoCallback m2 = onI
                   /\ completionCallback m2 = onC
                   /\ currentMessage m2 = currentMessage m
                   /\ hasContent m2 = hasContent m
                   /\ shouldCreateNewMessage m2 = shouldCreateNewMessage m)).
  { intros m1 HM HI HC Ht Hh Hp r.
    destruct (isConnected m1) eqn:Hc.
    - destruct (get_shape m1 b) as (id & b1 & Hget & Hne & Hs).
      subst r. unfold sendMessage. rewrite Hc, Hget. cbn [negb].
      replace (ws (set_conversationId (Some id) m1)) with (ws m1)
        by (destruct m1; reflexivity).
      destruct (ws m1) as [w|] eqn:Hw; [destruct (sendThrows b1)|].
      + left. rewrite close_returns. eexists _, _, _. split; [reflexivity|].
        destruct m1; exact HM.
      + right. exists id, (set_conversationId (Some id) m1), b1.
        split; [reflexivity|].
        destruct m1; cbn in *; repeat split; assumption.
      + left. rewrite close_returns. eexists _, _, _. split; [reflexivity|].
        destruct m1; exact HM.
    - left. subst r. unfold sendMessage. rewrite Hc. cbn [negb].
      rewrite close_returns. eexists _, _, _. split; [reflexivity|].
      exact HM. }
  unfold connect.
  destruct (isConnected m0 || isConnecting m0).
  - apply Hsend; subst m0; destruct m; reflexivity.
  - destruct (socketThrows b).
    + left. rewrite close_returns. eexists _, _, _. split; [reflexivity|].
      subst m0; destruct m; reflexivity.
    + destruct opens.
      * apply Hsend; subst m0; destruct m; reflexivity.
      * left. rewrite close_returns. eexists _, _, _. split; [reflexivity|].
        subst m0; destruct m; reflexivity.
Qed.

(** X9.  However a turn fails (the constructor throws, the socket reports
    an error, the manager is not connected, [ws.send] throws), the [catch]
    has run [close()]: the info and completion callbacks are cleared and the
    accumulator is reset, while the message callback of the failed turn stays
    registered. *)
Theorem rejected_turn_is_closed (msg msgs info : json)
  (onMessageReceived onInfoReceived onMessageComplete : option Callback)
  (opens : bool) (m : WebSocketManager) (b : Browser) (reason : string)
  (m' : WebSocketManager) (b' : Browser) (log : list effect) :
  sendMessageAndWaitForResponse msg msgs onMessageReceived onInfoReceived
    onMessageComplete info opens m b
  = (Rejected reason, m', b', log) ->
  infoCallback m' = None /\ completionCallback m' = None
  /\ currentMessage m' = "" /\ hasContent m' = false
  /\ shouldCreateNewMessage m' = false
  /\ messageCallback m' = onMessageReceived
  /\ filter (fun e => match e with WsSend _ => true | _ => false end) log = [].
Proof.
  intros H.
  destruct (turn_outcome msg msgs info onMessageReceived onInfoReceived
              onMessageComplete opens m b)
    as [(r & m2 & b2 & E & HM) | (id & m2 & b2 & E & _)];
    rewrite H in E; inversion E; subst.
  destruct m2 as [[?|] [|] ? ? ? ? ? ? ? ?]; cbn in *; repeat split;
    assumption.
Qed.

Lemma rejected_turn_is_closed_witness :
  let b := mkBrowser None false false false (fun _ => 0%N) false true in
  let r := sendMessageAndWaitForResponse (JStr "hello") (JArr [])
             (Some 1) (Some 2) (Some 3) JNull true newManager b in
  fst (fst (fst r)) = Rejected "send"
  /\ messageCallback (snd (fst (fst r))) = Some 1
  /\ completionCallback (snd (fst (fst r))) = None.
Proof.
  intros b r.
  assert (H : r = (Rejected "send", snd (fst (fst r)), snd (fst r), snd r))
    by (vm_compute; reflexivity).
  split; [vm_compute; reflexivity|].
  pose proof (rejected_turn_is_closed (JStr "hello") (JArr []) JNull (Some 1)
                (Some 2) (Some 3) true newManager b "send" _ _ _ H) as P.
  exact (conj (proj1 (proj2 (proj2 (proj2 (proj2 (proj2 P))))))
           (proj1 (proj2 P))).
Defined.

(** X10.  A turn that resolves has sent exactly one packet, carrying the
    identity the manager holds afterwards; the manager is connected, the
    three callbacks are the ones handed in, and the accumulator is as it was
    before the turn: [sendMessageAndWaitForResponse] does not reset it. *)
Theorem resolved_turn_is_armed (msg msgs info : json)
  (onMessageReceived onInfoReceived onMessageComplete : option Callback)
  (opens : bool) (m : WebSocketManager) (b : Browser)
  (m' : WebSocketManager) (b' : Browser) (log : list effect) :
  sendMessageAndWaitForResponse msg msgs onMessageReceived onInfoReceived
    onMessageComplete info opens m b
  = (Resolved, m', b', log) ->
  (exists id : string,
      conversationId m' = Some id /\ id <> ""
      /\ log = [WsSend (mkPacket "sendMessage" msg msgs id info)])
  /\ isConnected m' = true
  /\ messageCallback m' = onMessageReceived
  /\ infoCallback m' = onInfoReceived
  /\ completionCallback m' = onMessageComplete
  /\ currentMessage m' = currentMessage m
  /\ hasContent m' = hasContent m
  /\ shouldCreateNewMessage m' = shouldCreateNewMessage m.
Proof.
  intros H.
  destruct (turn_outcome msg msgs info onMessageReceived onInfoReceived
              onMessageComplete opens m b)
    as [(r & m2 & b2 & E & _)
       | (id & m2 & b2 & E & Hid & Hne & Hc & HM & HI & HC & Ht & Hh & Hp)];
    rewrite H in E; inversion E; subst.
  split; [exists id; repeat split; assumption|].
  repeat split; assumption.
Qed.

Lemma resolved_turn_is_armed_witness :
  let r := sendMessageAndWaitForResponse (JStr "hello") (JArr [])
             (Some 1) (Some 2) (Some 3) JNull true newManager quietBrowser in
  fst (fst (fst r)) = Resolved
  /\ isConnected (snd (fst (fst r))) = true.
Proof.
  intros r.
  assert (H : r = (Resolved, snd (fst (fst r)), snd (fst r), snd r))
    by (vm_compute; reflexivity).
  split; [vm_compute; reflexivity|].
  exact (proj1 (proj2 (resolved_turn_is_armed (JStr "hello") (JArr []) JNull
                         (Some 1) (Some 2) (Some 3) true newManager
                         quietBrowser _ _ _ H))).
Defined.

(** ** The connection *)

(** X11.  The connection goes round: once [onclose] has run the status is
    'disconnected' and [connect()] starts a new attempt, creating a socket
    and showing 'connecting', unless the constructor throws, which leaves the
    manager as it was; during the attempt and once [onopen] has made the
    status 'connected', a further [connect()] resolves at once and changes
    nothing; [onerror] brings the status back to 'disconnected'. *)
Theorem connection_lifecycle (m : WebSocketManager) (b b' : Browser) :
  let idle := onclose m in
  let trying := snd (connect idle b) in
  getConnectionStatus idle = "disconnected"
  /\ connect idle b
     = (if socketThrows b then (Some (Rejected "WebSocket constructor"), idle)
        else (None, set_ws (Some Socket) (set_isConnecting true idle)))
  /\ (socketThrows b = false ->
      getConnectionStatus trying = "connecting"
      /\ connect trying b' = (Some Resolved, trying)
      /\ getConnectionStatus (onopen trying) = "connected"
      /\ connect (onopen trying) b' = (Some Resolved, onopen trying)
      /\ getConnectionStatus (onerror trying) = "disconnected"
      /\ getConnectionStatus (onclose (onopen trying)) = "disconnected").
Proof.
  intros idle trying. subst trying idle. unfold connect.
  destruct m; cbn. split; [reflexivity|]. split.
  - destruct (socketThrows b); reflexivity.
  - intros ->. cbn. repeat split.
Qed.

(** ** The handler, payload by payload *)

Section Payloads.
Context {JS : Coercions}.

Lemma strictEq_true (v : value) (s : string) :
  strictEq v s = true <-> v = Some (JStr s).
Proof.
  destruct v as [[| | |t| |]|]; cbn; split; try congruence.
  - intros H. apply String.eqb_eq in H. now subst.
  - intros H. inversion H. apply String.eqb_refl.
Qed.

(** Whatever the payload, [onmessage] makes one of the [handled] steps. *)
Lemma onmessage_handled (event : payload) (m : WebSocketManager) :
  handled event m (fst (onmessage event m)) (snd (onmessage event m)).
Proof.
  destruct event as [|data]; [apply h_dropped|].
  unfold onmessage, handleStreamingMessage.
  destruct data as [| b | n | s | items | members]; try apply h_dropped.
  cbn [prop]. rewrite bind_ret.
  assert (L : forall m0 : WebSocketManager,
             recognized (JObj members) = false ->
             handled (Parsed (JObj members)) m0
               (fst (match (msg <- ret (member "message" members) ;;
                            f <- this messageCallback ;;
                            match msg, f with
                            | Some legacy, Some g =>
                                if truthy msg then
                                  call (CallMessage g legacy false) ;;;
                                  done <- this completionCallback ;;
                                  callIfSet done CallComplete ;;;
                                  close
                                else ret tt
                            | _, _ => ret tt
                            end) m0 with
                     | Returned _ m1 log => (m1, log)
                     | Thrown m1 log => (m1, log)
                     end))
               (snd (match (msg <- ret (member "message" members) ;;
                            f <- this messageCallback ;;
                            match msg, f with
                            | Some legacy, Some g =>
                                if truthy msg then
                                  call (CallMessage g legacy false) ;;;
                                  done <- this completionCallback ;;
                                  callIfSet done CallComplete ;;;
                                  close
                                else ret tt
                            | _, _ => ret tt
                            end) m0 with
                     | Returned _ m1 log => (m1, log)
                     | Thrown m1 log => (m1, log)
                     end))).
  { intros m0 Hrec. rewrite bind_ret.
    destruct (member "message" members) as [legacy|] eqn:Emsg;
      [|destruct m0; apply h_dropped].
    destruct (truthy (Some legacy)) eqn:Etruthy;
      [|destruct m0 as [? ? ? [?|] ? ? ? ? ? ?]; apply h_dropped].
    destruct m0 as [[?|] [|] ? [g|] ? [?|] ? ? ? ?]; cbn;
      first [ apply h_dropped
            | eapply h_legacy;
              [ reflexivity | exact Hrec | exact Emsg | exact Etruthy
              | reflexivity ] ]. }
  destruct (member "type" members) as [[| b | n | tag | items | ms]|] eqn:Etype;
    cbn [strictEq].
  1-3,5-7: apply L; cbn [recognized]; rewrite Etype; reflexivity.
  destruct (String.eqb_spec tag "messageStart") as [->|N1].
  { destruct m; apply h_start. exact Etype. }
  destruct (String.eqb_spec tag "contentBlockDelta") as [->|N2].
  { destruct m;
      repeat (unfold prop, callIfSet, when, hasActualContent, plus, gtZero,
                lengthOf, fromOption;
              cbn; split_match); cbn; try apply h_dropped;
      (eapply h_delta; [exact Etype|];
       first [ left; split;
               [ unfold deltaText;
                 repeat match goal with
                        | H : member _ _ = _ |- _ => rewrite H
                        end;
                 reflexivity
               | intros ->; discriminate ]
             | right; unfold coercedDelta;
               repeat match goal with H : member _ _ = _ |- _ => rewrite H end;
               reflexivity ]). }
  destruct (String.eqb_spec tag "breakTokenType") as [->|N3].
  { destruct m as [? ? ? ? ? ? current content ? ?]; unfold callIfSet; cbn.
    destruct content; cbn; try apply h_dropped.
    destruct current as [|c rest]; cbn; try apply h_dropped.
    destruct messageCallback0; cbn; apply h_break; cbn; congruence. }
  destruct (String.eqb_spec tag "messageStop") as [->|N4].
  { destruct m; unfold callIfSet, close, when; cbn.
    repeat (split_match; cbn); apply h_stop; exact Etype. }
  destruct (String.eqb_spec tag "info") as [->|N5].
  { destruct m;
      repeat (unfold prop; cbn; split_match); cbn; try apply h_dropped;
      eapply h_info; first [ exact Etype | reflexivity ]. }
  apply L. cbn [recognized strictEq]. rewrite Etype. cbn [strictEq].
  apply String.eqb_neq in N1, N2, N3, N4, N5.
  now rewrite N1, N2, N3, N4, N5.
Qed.

End Payloads.

Section PayloadFacts.
Context {JS : Coercions}.

Lemma tag_unique (event : payload) (a b : string) :
  tagIs event a -> tagIs event b -> a = b.
Proof. destruct event; cbn; [tauto | congruence]. Qed.

Lemma tag_recognized (data : json) (tag : string) :
  tagIs (Parsed data) tag ->
  In tag ["messageStart"; "contentBlockDelta"; "breakTokenType"; "messageStop";
          "info"] ->
  recognized data = true.
Proof.
  cbn [tagIs]. destruct data; cbn [typeOf recognized]; try discriminate.
  intros -> Hin. cbn [strictEq].
  cbn in Hin. destruct Hin as [<- | [<- | [<- | [<- | [<- | []]]]]]; reflexivity.
Qed.

Lemma coerced_not_inert (event : payload) :
  coercedDelta event = true -> inert (deltaText event) = false.
Proof.
  destruct event as [|[| | | | |members]]; cbn; try discriminate.
  intros H. apply andb_true_iff in H. destruct H as [_ H].
  destruct (member "data" members) as [[| | | | |d]|]; try discriminate.
  destruct (member "delta" d) as [[| | | | |e]|]; try discriminate.
  destruct (member "text" e) as [[| | | | |]|]; try discriminate; reflexivity.
Qed.

Lemma isBreak_tag (event : payload) :
  tagIs event "breakTokenType" <-> isBreak event = true.
Proof.
  destruct event as [|data]; cbn; [split; [tauto | discriminate]|].
  symmetry. apply strictEq_true.
Qed.

(** X12.  A content delta with nothing to add changes nothing and calls
    nothing: one whose text is the empty string, [null], a boolean or a
    number, one without a text, and one in which [data] or [delta] is missing
    (reading the text then throws, and [onmessage] swallows it). *)
Theorem inert_delta_is_dropped (event : payload) (m : WebSocketManager) :
  tagIs event "contentBlockDelta" ->
  inert (deltaText event) = true ->
  onmessage event m = (m, []).
Proof.
  intros Htag Hinert. pose proof (onmessage_handled event m) as H.
  destruct (onmessage event m) as [m1 l1]; cbn [fst snd] in H.
  destruct H as [ | T | t T [[Ht Hne] | Hco] | T | T | g v T | g data v E R ];
    try reflexivity;
    try (pose proof (tag_unique _ _ _ Htag T); discriminate).
  - rewrite Ht in Hinert. cbn in Hinert. apply String.eqb_eq in Hinert.
    contradiction.
  - rewrite (coerced_not_inert _ Hco) in Hinert. discriminate.
  - subst event. rewrite (tag_recognized data _ Htag) in R; [discriminate|].
    cbn; tauto.
Qed.

(** X13.  An info notice may carry its text as [data] itself or as
    [data.message]: for a non-empty text both forms make the same single call
    of the info callback with that text, and neither changes the manager. *)
Theorem info_both_forms (text : string) (m : WebSocketManager) :
  text <> "" ->
  onmessage (tagged "info" [("data", JStr text)]) m
  = (m, notify (infoCallback m) (fun g => CallInfo g (JStr text)))
  /\ onmessage (tagged "info" [("data", JObj [("message", JStr text)])]) m
     = (m, notify (infoCallback m) (fun g => CallInfo g (JStr text))).
Proof.
  intros H. destruct text as [|c text]; [congruence|].
  destruct m as [? ? ? ? [g|] ? ? ? ? ?]; split; reflexivity.
Qed.

(** X14.  No payload tagged [info], well formed or not, changes the manager,
    and the only call it can make is one call of the registered info
    callback. *)
Theorem info_leaves_manager (event : payload) (m : WebSocketManager) :
  tagIs event "info" ->
  fst (onmessage event m) = m
  /\ (snd (onmessage event m) = []
      \/ exists (g : Callback) (infoMessage : json),
           infoCallback m = Some g
           /\ snd (onmessage event m) = [CallInfo g infoMessage]).
Proof.
  intros Htag. pose proof (onmessage_handled event m) as H.
  destruct (onmessage event m) as [m1 l1]; cbn [fst snd] in *.
  destruct H as [ | T | t T _ | T | T | g v T Hg | g data v E R ];
    try (pose proof (tag_unique _ _ _ Htag T); discriminate).
  - split; [reflexivity | now left].
  - split; [reflexivity | right; now exists g, v].
  - subst event. rewrite (tag_recognized data _ Htag) in R; [discriminate|].
    cbn; tauto.
Qed.

(** What a frame leaves alone, and what it can do to the callbacks. *)
Lemma step_keeps (event : payload) (m : WebSocketManager) :
  let m1 := fst (onmessage event m) in
  ws m1 = ws m /\ isConnected m1 = isConnected m
  /\ isConnecting m1 = isConnecting m
  /\ messageCallback m1 = messageCallback m
  /\ conversationId m1 = conversationId m
  /\ (infoCallback m1 = infoCallback m \/ infoCallback m1 = None)
  /\ (completionCallback m1 = completionCallback m
      \/ completionCallback m1 = None).
Proof.
  intros m1; subst m1. pose proof (onmessage_transition event m) as T.
  destruct (onmessage event m) as [m1 l1]; cbn [fst snd] in *.
  destruct T; destruct m; cbn; repeat split; auto.
Qed.

(** X15.  Handling frames never reassigns the manager's socket field and
    never changes [isConnected], [isConnecting], the message callback or the
    conversation identity, and it never sends: the one thing the handler does
    to the socket is to call [ws.close()], on [messageStop] and on legacy
    frames, leaving [isConnected] for the socket's [onclose] to reset. *)
Theorem frames_keep_connection_and_identity (events : list payload)
  (m : WebSocketManager) :
  let m' := fst (deliver events m) in
  ws m' = ws m /\ isConnected m' = isConnected m
  /\ isConnecting m' = isConnecting m
  /\ messageCallback m' = messageCallback m
  /\ conversationId m' = conversationId m
  /\ filter isSendCall (snd (deliver events m)) = [].
Proof.
  revert m; induction events as [|e rest IH]; intros m; [cbn; tauto|].
  cbn zeta. rewrite deliver_cons; cbn [fst snd].
  destruct (IH (fst (onmessage e m))) as (H1 & H2 & H3 & H4 & H5 & H6).
  destruct (step_keeps e m) as (K1 & K2 & K3 & K4 & K5 & _).
  repeat split; try congruence.
  rewrite filter_app, H6, app_nil_r.
  pose proof (onmessage_transition e m) as T.
  destruct (onmessage e m) as [m1 l1]; cbn [fst snd] in *.
  destruct T; destruct m as [[?|] [|] ? [?|] ? [?|] ? ? ? ?]; reflexivity.
Qed.

Lemma step_registered (event : payload) (m : WebSocketManager) :
  Forall (registeredIn m) (snd (onmessage event m)).
Proof.
  pose proof (onmessage_transition event m) as T.
  destruct (onmessage event m) as [m1 l1]; cbn [fst snd] in *.
  destruct T;
    destruct m as [[?|] [|] ? [?|] [?|] [?|] ? ? ? ?]; cbn in *;
    repeat constructor; cbn; congruence.
Qed.

(** X16.  The handler calls nothing but what the turn registered: every
    call of [onMessage], [onInfo] or [onComplete] made while handling any
    sequence of payloads goes to the callback held in that field when the
    sequence began. *)
Theorem only_registered_callbacks (events : list payload)
  (m : WebSocketManager) :
  Forall (registeredIn m) (snd (deliver events m)).
Proof.
  revert m; induction events as [|e rest IH]; intros m; [constructor|].
  rewrite deliver_cons; cbn [snd]. apply Forall_app. split.
  - apply step_registered.
  - destruct (step_keeps e m) as (_ & _ & _ & KM & _ & KI & KC).
    eapply Forall_impl; [|apply IH].
    intros [g v n | g v | g | | p]; cbn; try tauto; try congruence.
    + destruct KI as [KI|KI]; congruence.
    + destruct KC as [KC|KC]; congruence.
Qed.

Lemma step_no_empty_message (event : payload) (m : WebSocketManager) :
  coercedDelta event = false ->
  filter emptyMessageCall (snd (onmessage event m)) = [].
Proof.
  intros Hplain. pose proof (onmessage_handled event m) as H.
  destruct (onmessage event m) as [m1 l1]; cbn [fst snd] in *.
  destruct H as [ | T | t T [[Ht Hne] | Hco] | T Hc Hcur | T | g v T Hg
                | g data v E R Hmsg Htruthy Hg ];
    try reflexivity; try congruence.
  - pose proof (append_nonempty (currentMessage m) t Hne) as A.
    destruct (messageCallback m); cbn; [|reflexivity].
    destruct (currentMessage m ++ t); [congruence | reflexivity].
  - destruct (messageCallback m); cbn; [|reflexivity].
    destruct (currentMessage m); [congruence | reflexivity].
  - unfold closeLog.
    destruct (completionCallback m), (ws m), (isConnected m); reflexivity.
  - cbn [filter emptyMessageCall]. rewrite Htruthy. cbn [negb].
    unfold closeLog.
    destruct (completionCallback m), (ws m), (isConnected m); reflexivity.
Qed.

(** X17.  [onMessage] is never called with an empty text: as long as delta
    texts are strings (or other primitives), every call made while handling
    any sequence of payloads carries a truthy text, be it from a delta, a
    break or a legacy frame. *)
Theorem message_text_never_empty (events : list payload)
  (m : WebSocketManager) :
  Forall (fun e => coercedDelta e = false) events ->
  filter emptyMessageCall (snd (deliver events m)) = [].
Proof.
  revert m; induction events as [|e rest IH]; intros m Hp; [reflexivity|].
  inversion Hp as [|? ? He Hrest]; subst.
  rewrite deliver_cons; cbn [snd].
  now rewrite filter_app, step_no_empty_message, IH.
Qed.

Lemma step_new_messages (event : payload) (m : WebSocketManager) :
  (List.length (newMessageCalls (snd (onmessage event m)))
   + (if shouldCreateNewMessage (fst (onmessage event m)) then 1 else 0)
   <= (if isBreak event then 1 else 0)
      + (if shouldCreateNewMessage m then 1 else 0))%nat.
Proof.
  pose proof (onmessage_handled event m) as H.
  destruct (onmessage event m) as [m1 l1]; cbn [fst snd] in *.
  destruct H as [ | T | t T _ | T Hc Hcur | T | g v T Hg
                | g data v E R Hmsg Htruthy Hg ].
  - cbn. lia.
  - destruct m as [? ? ? ? ? ? ? ? [|] ?]; cbn; destruct (isBreak event); lia.
  - destruct m as [? ? ? [?|] ? ? ? ? [|] ?]; cbn; destruct (isBreak event);
      lia.
  - apply isBreak_tag in T. rewrite T.
    destruct m as [? ? ? [?|] ? ? ? ? [|] ?]; cbn; lia.
  - destruct m as [[?|] [|] ? ? ? [?|] ? ? [|] ?]; cbn;
      destruct (isBreak event); lia.
  - cbn. lia.
  - destruct m as [[?|] [|] ? ? ? [?|] ? ? [|] ?]; cbn;
      destruct (isBreak event); lia.
Qed.

(** X18.  A new chat message is opened only by a break token: while
    handling any sequence of payloads, the calls [onMessage(..., true)]
    number at most the break tokens received, plus one if a new message was
    already pending at the start. *)
Theorem new_messages_bounded_by_breaks (events : list payload)
  (m : WebSocketManager) :
  (List.length (newMessageCalls (snd (deliver events m)))
   <= List.length (filter isBreak events)
      + (if shouldCreateNewMessage m then 1 else 0))%nat.
Proof.
  enough (G : forall (events : list payload) (m : WebSocketManager),
             (List.length (newMessageCalls (snd (deliver events m)))
              + (if shouldCreateNewMessage (fst (deliver events m))
                 then 1 else 0)
              <= List.length (filter isBreak events)
                 + (if shouldCreateNewMessage m then 1 else 0))%nat)
    by (specialize (G events m); lia).
  clear. intros events; induction events as [|e rest IH]; intros m;
    [cbn; lia|].
  rewrite deliver_cons; cbn [fst snd].
  unfold newMessageCalls in *. rewrite filter_app, length_app.
  pose proof (step_new_messages e m) as S. unfold newMessageCalls in S.
  specialize (IH (fst (onmessage e m))).
  cbn [filter]. destruct (isBreak e); cbn [List.length]; lia.
Qed.

(** X19.  [messageStart] discards whatever was accumulated and any pending
    new message: the deltas that follow report their own texts only, the
    first of them as an update, not as a new message. *)
Theorem message_start_discards (texts : list string) (m : WebSocketManager)
  (g : Callback) :
  messageCallback m = Some g ->
  Forall (fun d => d <> "") texts ->
  snd (deliver (encode MessageStart :: deltas texts) m)
  = running g false "" texts.
Proof.
  intros Hg Hne. rewrite deliver_cons, on_MessageStart. cbn [fst snd app].
  rewrite (deltas_log texts _ g); [destruct m; reflexivity | | assumption].
  destruct m; exact Hg.
Qed.

End PayloadFacts.

Lemma inert_delta_is_dropped_witness :
  let event := tagged "contentBlockDelta" [("data", JObj [("delta", JNull)])] in
  inert (deltaText event) = true
  /\ onmessage (JS := throwingCoercions) event turn = (turn, []).
Proof.
  intros event. split; [reflexivity|].
  exact (inert_delta_is_dropped (JS := throwingCoercions) event turn eq_refl
           eq_refl).
Defined.

Lemma info_both_forms_witness :
  "Searching" <> ""
  /\ onmessage (JS := throwingCoercions)
       (tagged "info" [("data", JStr "Searching")]) turn
     = (turn, [CallInfo 2 (JStr "Searching")]).
Proof.
  assert (H : "Searching" <> "") by discriminate.
  split; [exact H|].
  exact (proj1 (info_both_forms (JS := throwingCoercions) "Searching" turn H)).
Defined.

Lemma info_leaves_manager_witness :
  let event := tagged "info" [] in
  fst (onmessage (JS := throwingCoercions) event turn) = turn.
Proof.
  intros event.
  exact (proj1 (info_leaves_manager (JS := throwingCoercions) event turn
                  eq_refl)).
Defined.

Lemma message_text_never_empty_witness :
  filter emptyMessageCall
    (snd (deliver (JS := throwingCoercions)
            [encode (ContentDelta ""); encode BreakToken;
             encode (Legacy ""); encode (ContentDelta "a"); encode BreakToken]
            turn))
  = [].
Proof.
  refine (message_text_never_empty (JS := throwingCoercions) _ turn _).
  repeat (apply Forall_cons; [reflexivity|]). apply Forall_nil.
Defined.

Lemma message_start_discards_witness :
  let m := fst (deliver (JS := throwingCoercions)
                  [encode (ContentDelta "old"); encode BreakToken] turn) in
  shouldCreateNewMessage m = true
  /\ snd (deliver (JS := throwingCoercions)
            (encode MessageStart :: deltas ["Hi"; " there"]) m)
     = [CallMessage 1 (JStr "Hi") false; CallMessage 1 (JStr "Hi there") false].
Proof.
  intros m. split; [reflexivity|].
  refine (message_start_discards (JS := throwingCoercions) ["Hi"; " there"] m 1
            eq_refl _).
  repeat (apply Forall_cons; [discriminate|]). apply Forall_nil.
Defined.

(** * The chat screen *)

Module ChatFacts.
Import Chat.

(** ** The history sent with a turn *)

Lemma transform_app (a b : list Message) :
  transformMessagesToClaudeFormat (a ++ b)
  = (transformMessagesToClaudeFormat a ++ transformMessagesToClaudeFormat b)%list.
Proof.
  unfold transformMessagesToClaudeFormat.
  now rewrite !filter_app, map_app.
Qed.

(** X20.  What [handleSend] sends as history: the history of the messages
    so far, followed by one [user] entry with the text just typed (the
    message being sent is a user message, and its identifier is a time, not
    ['1']). *)
Theorem history_of_a_send (msgs : list Message) (userMessage : Message) :
  sender userMessage = user ->
  id userMessage <> "1" ->
  transformMessagesToClaudeFormat (msgs ++ [userMessage])
  = (transformMessagesToClaudeFormat msgs
     ++ [Claude.mkEntry "user" [Claude.mkContent (text userMessage)]])%list.
Proof.
  intros Hs Hid. rewrite transform_app. f_equal.
  unfold transformMessagesToClaudeFormat. cbn [filter].
  apply String.eqb_neq in Hid. rewrite Hid. cbn [negb filter].
  rewrite Hs. cbn [isBot negb orb map]. now rewrite Hs.
Qed.

Lemma history_of_a_send_witness :
  let welcome := mkMessage "1" "Hi! What can I help you with today?" bot 0
                   None None in
  let typed := mkMessage "1700000000000" "Housing" user 1700000000000
                 None None in
  id typed <> "1"
  /\ transformMessagesToClaudeFormat ([welcome] ++ [typed])
     = [Claude.mkEntry "user" [Claude.mkContent "Housing"]].
Proof.
  intros welcome typed.
  assert (H : id typed <> "1") by discriminate.
  split; [exact H|].
  exact (history_of_a_send [welcome] typed eq_refl H).
Defined.

(** X21.  The history leaves out the welcome message (the message with
    identifier ['1'], whoever sent it) and every bot message without text,
    such as the placeholder of an answer that never came: with or without
    such a message in the list, the result is the same. *)
Theorem history_skips (before after : list Message) (msg : Message) :
  id msg = "1" \/ (sender msg = bot /\ text msg = "") ->
  transformMessagesToClaudeFormat (before ++ msg :: after)
  = transformMessagesToClaudeFormat (before ++ after).
Proof.
  intros H. rewrite !transform_app. f_equal.
  change (msg :: after) with ([msg] ++ after)%list. rewrite transform_app.
  replace (transformMessagesToClaudeFormat [msg]) with (@nil Claude.Entry);
    [reflexivity|].
  unfold transformMessagesToClaudeFormat. cbn [filter].
  destruct H as [-> | [Hs Ht]]; [reflexivity|].
  destruct (negb (id msg =? "1")); [|reflexivity].
  cbn [filter]. rewrite Hs, Ht. reflexivity.
Qed.

Lemma history_skips_witness :
  let placeholder := mkMessage "1700000000001" "" bot 1700000000000 None None in
  let typed := mkMessage "1700000000000" "Housing" user 1700000000000
                 None None in
  text placeholder = ""
  /\ transformMessagesToClaudeFormat ([typed] ++ placeholder :: [])
     = transformMessagesToClaudeFormat ([typed] ++ []).
Proof.
  intros placeholder typed. split; [reflexivity|].
  exact (history_skips [typed] [] placeholder
           (or_intror (conj eq_refl eq_refl))).
Defined.

(** X22.  Every entry of the history has the role [user] or [assistant]
    and exactly one content block; an [assistant] entry never has an empty
    text, while a user message is passed on even when its text is empty; and
    the history is never longer than the message list. *)
Theorem history_shape (msgs : list Message) :
  Forall (fun e =>
            (Claude.role e = "user" \/ Claude.role e = "assistant")
            /\ (exists t, Claude.content e = [Claude.mkContent t]
                          /\ (Claude.role e = "assistant" -> t <> "")))
    (transformMessagesToClaudeFormat msgs)
  /\ (List.length (transformMessagesToClaudeFormat msgs)
      <= List.length msgs)%nat
  /\ forall (i t : string) (stamp : N),
       i <> "1" ->
       transformMessagesToClaudeFormat [mkMessage i t user stamp None None]
       = [Claude.mkEntry "user" [Claude.mkContent t]].
Proof.
  split; [|split].
  - induction msgs as [|msg rest IH]; [constructor|].
    change (msg :: rest) with ([msg] ++ rest)%list. rewrite transform_app.
    apply Forall_app. split; [|exact IH].
    unfold transformMessagesToClaudeFormat. cbn [filter].
    destruct (negb (id msg =? "1")); [|constructor]. cbn [filter].
    destruct (sender msg) eqn:Hs; cbn [isBot negb orb].
    + cbn [map]. apply Forall_cons; [|apply Forall_nil].
      cbn [Claude.role Claude.content]. rewrite Hs. split; [now left|].
      exists (text msg). split; [reflexivity | discriminate].
    + destruct (String.eqb_spec (text msg) "") as [Ht|Ht]; cbn [negb map];
        [apply Forall_nil|].
      apply Forall_cons; [|apply Forall_nil].
      cbn [Claude.role Claude.content]. rewrite Hs. split; [now right|].
      exists (text msg). split; [reflexivity | intros _; exact Ht].
  - unfold transformMessagesToClaudeFormat. rewrite length_map.
    etransitivity; [apply filter_length_le|]. apply filter_length_le.
  - intros i t stamp Hi. unfold transformMessagesToClaudeFormat. cbn.
    apply String.eqb_neq in Hi. now rewrite Hi.
Qed.

(** ** Escaped newlines *)

Lemma unescape_head (d : ascii) (rest : string) :
  exists t : string,
    unescapeNewlines (String d rest) = String newline t
    \/ unescapeNewlines (String d rest) = String d t.
Proof.
  destruct rest as [|e rest']; cbn [unescapeNewlines].
  - exists EmptyString. now right.
  - destruct (Ascii.eqb d "\" && Ascii.eqb e "n"); eexists; eauto.
Qed.

Lemma hasEscaped_cons (c d : ascii) (rest : string) :
  hasEscapedNewline (String c (String d rest))
  = (Ascii.eqb c "\" && Ascii.eqb d "n") || hasEscapedNewline (String d rest).
Proof. reflexivity. Qed.

Lemma unescape_cons (c d : ascii) (rest : string) :
  unescapeNewlines (String c (String d rest))
  = if Ascii.eqb c "\" && Ascii.eqb d "n"
    then String newline (unescapeNewlines rest)
    else String c (unescapeNewlines (String d rest)).
Proof. reflexivity. Qed.

Lemma unescape_facts (n : nat) :
  forall s : string,
    (String.length s <= n)%nat ->
    hasEscapedNewline (unescapeNewlines s) = false
    /\ (String.length (unescapeNewlines s) <= String.length s)%nat
    /\ (hasEscapedNewline s = false -> unescapeNewlines s = s).
Proof.
  induction n as [|n IH]; intros s Hn.
  - destruct s; [repeat split; auto | cbn in Hn; lia].
  - destruct s as [|c [|d rest']]; [repeat split; auto .. |].
    cbn [String.length] in Hn.
    rewrite unescape_cons, hasEscaped_cons.
    destruct (Ascii.eqb c "\" && Ascii.eqb d "n") eqn:E.
    + destruct (IH rest') as (H1 & H2 & _); [lia|].
      split; [|split; [cbn [String.length]; lia | discriminate]].
      destruct (unescapeNewlines rest') as [|e t] eqn:U; [reflexivity|].
      rewrite hasEscaped_cons, H1. reflexivity.
    + destruct (IH (String d rest')) as (H1 & H2 & H3); [cbn; lia|].
      split; [|split].
      * destruct (unescape_head d rest') as [t [U|U]]; rewrite U in *;
          rewrite hasEscaped_cons, H1, orb_false_r.
        -- destruct (Ascii.eqb c "\"); reflexivity.
        -- exact E.
      * cbn [String.length] in *. lia.
      * cbn [orb]. intros Hno. now rewrite (H3 Hno).
Qed.

(** X23.  [unescapeNewlines] leaves no backslash followed by [n] in its
    result, so applying it again changes nothing; it never makes a text
    longer, and a text without that pair is returned as it is. *)
Theorem unescape_is_complete (s : string) :
  hasEscapedNewline (unescapeNewlines s) = false
  /\ unescapeNewlines (unescapeNewlines s) = unescapeNewlines s
  /\ (String.length (unescapeNewlines s) <= String.length s)%nat
  /\ (hasEscapedNewline s = false -> unescapeNewlines s = s).
Proof.
  destruct (unescape_facts (String.length s) s (le_n _)) as (H1 & H2 & H3).
  split; [exact H1|]. split; [|split; assumption].
  apply (unescape_facts (String.length (unescapeNewlines s))
           (unescapeNewlines s) (le_n _)).
  exact H1.
Qed.

(** ** The message list *)

Lemma spread_text_twice (msg : Message) (a b : string) :
  spread (spread msg (Partial.ofText a)) (Partial.ofText b)
  = spread msg (Partial.ofText b).
Proof. reflexivity. Qed.

Lemma update_text_twice (messageId a b : string) (prev : list Message) :
  updateMessage messageId (Partial.ofText b)
    (updateMessage messageId (Partial.ofText a) prev)
  = updateMessage messageId (Partial.ofText b) prev.
Proof.
  unfold updateMessage. rewrite map_map. apply map_ext. intros msg.
  destruct (String.eqb_spec (id msg) messageId) as [E|E].
  - cbn [spread id Partial.id Partial.ofText orElse].
    rewrite (proj2 (String.eqb_eq _ _) E). apply spread_text_twice.
  - now rewrite (proj2 (String.eqb_neq _ _) E).
Qed.

Lemma update_absent (messageId : string) (updates : Partial.t)
  (prev : list Message) :
  (forall msg, In msg prev -> id msg <> messageId) ->
  updateMessage messageId updates prev = prev.
Proof.
  intros H. unfold updateMessage. rewrite <- (map_id prev) at 2.
  apply map_ext_in. intros msg Hin.
  now rewrite (proj2 (String.eqb_neq _ _) (H msg Hin)).
Qed.

(** X24.  Text updates of one message overwrite each other: updating a
    message's text and then updating it again leaves the list as the second
    update alone would. *)
Theorem update_text_last_wins (messageId a b : string) (prev : list Message) :
  updateMessage messageId (Partial.ofText b)
    (updateMessage messageId (Partial.ofText a) prev)
  = updateMessage messageId (Partial.ofText b) prev.
Proof. apply update_text_twice. Qed.

(** X25.  Updating an identifier that no message carries changes
    nothing. *)
Theorem update_unknown_id (messageId : string) (updates : Partial.t)
  (prev : list Message) :
  (forall msg, In msg prev -> id msg <> messageId) ->
  updateMessage messageId updates prev = prev.
Proof. apply update_absent. Qed.

Lemma update_unknown_id_witness :
  let typed := mkMessage "1700000000000" "Housing" user 1700000000000
                 None None in
  updateMessage "42" (Partial.ofText "lost") [typed] = [typed].
Proof.
  intros typed.
  refine (update_unknown_id "42" (Partial.ofText "lost") [typed] _).
  intros msg [<- | []]. discriminate.
Defined.

(** X26.  A text update keeps the list in shape: the same number of
    messages with the same identifiers, senders and times in the same order;
    every message with the given identifier now has the new text, and every
    other message is what it was. *)
Theorem update_text_keeps_shape (messageId t : string) (prev : list Message) :
  let next := updateMessage messageId (Partial.ofText t) prev in
  map id next = map id prev
  /\ map sender next = map sender prev
  /\ map timestamp next = map timestamp prev
  /\ map text next
     = map (fun msg => if String.eqb (id msg) messageId then t else text msg)
         prev
  /\ forall (k : nat) (msg : Message),
       nth_error prev k = Some msg -> id msg <> messageId ->
       nth_error next k = Some msg.
Proof.
  intros next; subst next. unfold updateMessage.
  repeat split; try (rewrite map_map; apply map_ext; intros msg;
                     destruct (id msg =? messageId); reflexivity).
  intros k msg Hk Hid. rewrite nth_error_map, Hk. cbn.
  now rewrite (proj2 (String.eqb_neq _ _) Hid).
Qed.

(** X27.  A message added under an identifier that is new to the list and
    then updated is the only message the update touches: the list is the old
    one followed by the message with its new text. *)
Theorem add_then_update (msg : Message) (t : string) (prev : list Message) :
  (forall other, In other prev -> id other <> id msg) ->
  updateMessage (id msg) (Partial.ofText t) (addMessage msg prev)
  = addMessage (spread msg (Partial.ofText t)) prev.
Proof.
  intros Hfresh. unfold addMessage, updateMessage. rewrite map_app.
  cbn [map]. rewrite String.eqb_refl. f_equal.
  apply (update_absent (id msg) (Partial.ofText t) prev Hfresh).
Qed.

Lemma add_then_update_witness :
  let typed := mkMessage "100" "Housing" user 100 None None in
  let placeholder := mkMessage "101" "" bot 100 None None in
  updateMessage "101" (Partial.ofText "Hi") (addMessage placeholder [typed])
  = [typed; mkMessage "101" "Hi" bot 100 None None].
Proof.
  intros typed placeholder.
  refine (add_then_update placeholder "Hi" [typed] _).
  intros other [<- | []]. discriminate.
Defined.

End ChatFacts.

(** * A stream on the screen *)

Module ScreenFacts.
Import Chat.

Section Streams.
Context {JS : Coercions}.
Variable blank : string -> bool.

Lemma messages_after_update (aid : string) (now stamp : N) (s : string)
  (st : Screen) :
  messages (onBotMessageReceived blank aid now stamp s false st)
  = updateMessage aid (Partial.ofText s) (messages st).
Proof.
  unfold onBotMessageReceived.
  destruct (negb (s =? "") && negb (blank s)); reflexivity.
Qed.

Lemma messages_after_new (aid : string) (now stamp : N) (s : string)
  (st : Screen) :
  messages (onBotMessageReceived blank aid now stamp s true st)
  = addMessage (mkMessage (numberToString now) s bot stamp None None)
      (messages st).
Proof.
  unfold onBotMessageReceived.
  destruct (negb (s =? "") && negb (blank s)); reflexivity.
Qed.

Lemma render_app (aid : string) (l1 l2 : list effect) :
  forall (clock : nat -> N * N) (st : Screen),
    render blank aid clock (l1 ++ l2) st
    = render blank aid (fun k => clock (List.length l1 + k)%nat) l2
        (render blank aid clock l1 st).
Proof.
  induction l1 as [|e l1 IH]; intros clock st; [reflexivity|].
  cbn [app render List.length]. now rewrite IH.
Qed.

Lemma render_running (aid : string) (g : Callback) (texts : list string) :
  forall (acc : string) (clock : nat -> N * N) (st : Screen),
    texts <> [] ->
    messages (render blank aid clock (running g false acc texts) st)
    = updateMessage aid (Partial.ofText (acc ++ concatenation texts))
        (messages st).
Proof.
  induction texts as [|d rest IH]; intros acc clock st Hne; [congruence|].
  cbn [running render dispatch].
  destruct rest as [|d' rest'].
  - cbn [running render concatenation fold_right].
    now rewrite messages_after_update, append_empty_r.
  - rewrite IH by discriminate. rewrite messages_after_update.
    rewrite ChatFacts.update_text_twice.
    change (concatenation (d :: d' :: rest'))
      with (d ++ concatenation (d' :: rest')).
    now rewrite append_assoc.
Qed.

Lemma concatenation_nonempty (texts : list string) :
  texts <> [] -> Forall (fun d => d <> "") texts -> concatenation texts <> "".
Proof.
  destruct texts as [|d rest]; [congruence|]. intros _ H.
  inversion H as [|? ? Hd _]; subst. cbn.
  destruct d; [congruence | discriminate].
Qed.

Lemma deltas_state (texts : list string) :
  forall m : WebSocketManager,
    texts <> [] -> Forall (fun d => d <> "") texts ->
    fst (deliver (deltas texts) m)
    = withAccumulator (currentMessage m ++ concatenation texts) true false m.
Proof.
  induction texts as [|d rest IH]; intros m Hne Hall; [congruence|].
  inversion Hall as [|? ? Hd Hrest]; subst.
  unfold deltas; cbn [map]. rewrite deliver_cons, on_ContentDelta by assumption.
  cbn [fst]. fold (deltas rest). destruct rest as [|d' rest'].
  - cbn. now rewrite append_empty_r.
  - rewrite IH by (try discriminate; assumption).
    change (concatenation (d :: d' :: rest'))
      with (d ++ concatenation (d' :: rest')).
    destruct m; cbn. now rewrite append_assoc.
Qed.

(** X28.  While an answer streams in, the placeholder that [handleSend]
    added shows all of it: after the calls made for non-empty deltas
    [d1 .. dn] on a fresh accumulator, every message with the placeholder's
    identifier has the text [d1 ++ ... ++ dn], and the list is otherwise
    unchanged. *)
Theorem stream_fills_placeholder (aid : string) (clock : nat -> N * N)
  (texts : list string) (m : WebSocketManager) (g : Callback) (st : Screen) :
  messageCallback m = Some g ->
  currentMessage m = "" ->
  shouldCreateNewMessage m = false ->
  texts <> [] ->
  Forall (fun d => d <> "") texts ->
  messages (render blank aid clock (snd (deliver (deltas texts) m)) st)
  = updateMessage aid (Partial.ofText (concatenation texts)) (messages st).
Proof.
  intros Hg Hcur Hp Hne Hall.
  rewrite (deltas_log texts m g Hg Hall), Hcur, Hp.
  now rewrite render_running.
Qed.

Lemma break_stream_log (first second : list string) (m : WebSocketManager)
  (g : Callback) :
  messageCallback m = Some g ->
  currentMessage m = "" ->
  shouldCreateNewMessage m = false ->
  first <> [] ->
  Forall (fun d => d <> "") first ->
  Forall (fun d => d <> "") second ->
  snd (deliver (deltas first ++ encode BreakToken :: deltas second) m)
  = (running g false "" first
     ++ CallMessage g (JStr (concatenation first)) false
        :: running g true "" second)%list.
Proof.
  intros Hg Hcur Hp Hne H1 H2.
  rewrite deliver_app; cbn [snd].
  rewrite (deltas_log first m g Hg H1), Hcur, Hp. f_equal.
  rewrite (deltas_state first m Hne H1), Hcur. cbn [String.append].
  set (m1 := withAccumulator (concatenation first) true false m).
  assert (Hg1 : messageCallback m1 = Some g) by (destruct m; exact Hg).
  assert (Hc1 : currentMessage m1 = concatenation first)
    by (destruct m; reflexivity).
  rewrite deliver_cons, on_BreakToken;
    [| destruct m; reflexivity
     | rewrite Hc1; now apply concatenation_nonempty ].
  cbn [fst snd]. rewrite Hg1, Hc1. cbn [notify app]. f_equal.
  rewrite (deltas_log second _ g); [destruct m; reflexivity | | assumption].
  destruct m; exact Hg.
Qed.

(** X29.  After a break, only the first delta of the new message reaches
    the bubble opened for it.  The call for that delta adds a message under a
    new identifier; the calls for the deltas after it are updates, and an
    update is addressed to the placeholder of [handleSend].  So after deltas
    [b], [c], ... following the break, the placeholder shows
    [b ++ c ++ ...] and the new bubble still shows [b]. *)
Theorem text_after_break_goes_to_placeholder (aid : string)
  (clock : nat -> N * N) (first : list string) (b c : string)
  (rest : list string) (m : WebSocketManager) (g : Callback) (st : Screen) :
  messageCallback m = Some g ->
  currentMessage m = "" ->
  shouldCreateNewMessage m = false ->
  first <> [] ->
  Forall (fun d => d <> "") first ->
  Forall (fun d => d <> "") (b :: c :: rest) ->
  numberToString (fst (clock (List.length first + 1)%nat)) <> aid ->
  messages
    (render blank aid clock
       (snd (deliver
               (deltas first ++ encode BreakToken :: deltas (b :: c :: rest))
               m)) st)
  = (updateMessage aid (Partial.ofText (concatenation (b :: c :: rest)))
       (messages st)
     ++ [mkMessage (numberToString (fst (clock (List.length first + 1)%nat))) b
           bot (snd (clock (List.length first + 1)%nat)) None None])%list.
Proof.
  intros Hg Hcur Hp Hne H1 H2 Hid.
  rewrite (break_stream_log first (b :: c :: rest) m g Hg Hcur Hp Hne H1 H2).
  rewrite render_app, running_length.
  change (running g true "" (b :: c :: rest))
    with (CallMessage g (JStr b) true :: running g false b (c :: rest)).
  cbn [render dispatch].
  rewrite render_running by (first [discriminate | assumption]).
  rewrite messages_after_new, messages_after_update.
  rewrite render_running by (first [discriminate | assumption]).
  cbn [String.append]. rewrite ChatFacts.update_text_twice.
  unfold addMessage. unfold updateMessage at 1. rewrite map_app.
  fold (updateMessage aid
          (Partial.ofText (b ++ concatenation (c :: rest)))
          (updateMessage aid (Partial.ofText (concatenation first))
             (messages st))).
  rewrite ChatFacts.update_text_twice.
  cbn [map id]. apply String.eqb_neq in Hid.
  replace (Nat.add (List.length first) 1) with (S (List.length first)) in *
    by lia.
  rewrite Hid. reflexivity.
Qed.

End Streams.

Lemma stream_fills_placeholder_witness :
  messageCallback turn = Some 1
  /\ messages
       (render (fun _ => false) "101" (fun _ => (0, 0)%N)
          (snd (deliver (JS := throwingCoercions) (deltas ["Hi"; " there"])
                  turn))
          whileTyping)
     = [mkMessage "100" "Housing" user 100 None None;
        mkMessage "101" "Hi there" bot 100 None None].
Proof.
  split; [reflexivity|].
  refine (stream_fills_placeholder (JS := throwingCoercions) (fun _ => false)
            "101" (fun _ => (0, 0)%N) ["Hi"; " there"] turn 1 whileTyping
            eq_refl eq_refl eq_refl _ _).
  - discriminate.
  - repeat (apply Forall_cons; [discriminate|]). apply Forall_nil.
Defined.

Lemma text_after_break_goes_to_placeholder_witness :
  messageCallback turn = Some 1
  /\ messages
       (render (fun _ => false) "101" (fun k => (200 + N.of_nat k, 300)%N)
          (snd (deliver (JS := throwingCoercions)
                  (deltas ["Thinking..."]
                   ++ encode BreakToken :: deltas ["An"; "swer"]) turn))
          whileTyping)
     = [mkMessage "100" "Housing" user 100 None None;
        mkMessage "101" "Answer" bot 100 None None;
        mkMessage "202" "An" bot 300 None None].
Proof.
  split; [reflexivity|].
  refine (text_after_break_goes_to_placeholder (JS := throwingCoercions)
            (fun _ => false) "101" (fun k => (200 + N.of_nat k, 300)%N)
            ["Thinking..."] "An" "swer" [] turn 1 whileTyping
            eq_refl eq_refl eq_refl _ _ _ _).
  - discriminate.
  - repeat (apply Forall_cons; [discriminate|]). apply Forall_nil.
  - repeat (apply Forall_cons; [discriminate|]). apply Forall_nil.
  - discriminate.
Defined.

End ScreenFacts.

(** * The claims on a socket *)

Section SocketFacts.
Context {JS : Coercions}.

(** What a payload tagged [contentBlockDelta] does is settled by its
    [contribution]. *)
Lemma delta_contribution (event : payload) (m : WebSocketManager) :
  tagIs event "contentBlockDelta" ->
  onmessage event m
  = match contribution event with
    | Some t =>
        (withAccumulator (currentMessage m ++ t) true false m,
         notify (messageCallback m)
           (fun g => CallMessage g (JStr (currentMessage m ++ t))
                       (shouldCreateNewMessage m)))
    | None => (m, [])
    end.
Proof.
  destruct event as [|[| | | | |members]]; cbn [tagIs typeOf]; try tauto;
    try discriminate.
  intros Etype.
  unfold onmessage, handleStreamingMessage, contribution, deltaText.
  cbn [prop]. rewrite bind_ret, Etype.
  cbn [strictEq String.eqb Ascii.eqb Bool.eqb].
  destruct m;
    repeat (unfold prop, callIfSet, when, hasActualContent, plus, gtZero,
              lengthOf, fromOption;
            cbn; split_match); cbn; try reflexivity.
  all: cbn in *; try congruence.
  all: repeat match goal with
              | H : match ?x with _ => _ end = _ |- _ =>
                  destruct x eqn:?; cbn in *; try congruence
              end.
  all: repeat match goal with
              | H : Some _ = Some _ |- _ => inversion H; subst; clear H
              end;
    try reflexivity.
Qed.

Lemma isDelta_tag (event : payload) :
  tagIs event "contentBlockDelta" <-> isDelta event = true.
Proof.
  destruct event as [|data]; cbn; [split; [tauto | discriminate]|].
  symmetry. apply strictEq_true.
Qed.

Lemma contribution_tag (event : payload) (t : string) :
  contribution event = Some t -> isDelta event = true.
Proof.
  destruct event as [|[| | | | |members]]; cbn; try discriminate.
  destruct (strictEq (member "type" members) "contentBlockDelta");
    [reflexivity | discriminate].
Qed.

Lemma contribution_encode (u : string) :
  u <> "" -> contribution (encode (ContentDelta u)) = Some u.
Proof. destruct u; [congruence | reflexivity]. Qed.

Lemma receive_deliver (events : list payload) :
  forall m : WebSocketManager,
    receive events m = deliver (received events m) m.
Proof.
  induction events as [|e rest IH]; intros m; [reflexivity|].
  cbn [receive received]. destruct (onmessage e m) as [m1 l1] eqn:E.
  destruct (existsb isCloseCall l1).
  - cbn [deliver]. rewrite E. now rewrite app_nil_r.
  - cbn [deliver]. rewrite E, IH. reflexivity.
Qed.

Lemma step_kind (event : payload) (m : WebSocketManager) (w : WebSocket)
  (g : Callback) :
  ws m = Some w -> isConnected m = true -> messageCallback m = Some g ->
  stepKind event m g.
Proof.
  intros Hw Hc Hg.
  destruct (isDelta event) eqn:D.
  - apply isDelta_tag in D. pose proof (delta_contribution event m D) as E.
    destruct (contribution event) as [t|] eqn:C.
    + apply (k_adds _ _ _ t C). now rewrite E, Hg.
    + apply k_passes; rewrite ?E; auto.
  - assert (C : contribution event = None).
    { destruct (contribution event) as [t|] eqn:C; [|reflexivity].
      apply contribution_tag in C. congruence. }
    pose proof (onmessage_handled event m) as H.
    destruct (onmessage event m) as [m1 l1] eqn:E; cbn [fst snd] in *.
    destruct H as [ | T | t T _ | T Hh Hcur | T | h v T Hh
                  | h data v Ed R Hmsg Htruthy Hh ].
    + apply k_passes; rewrite ?E; auto.
    + now apply k_starts.
    + apply isDelta_tag in T. congruence.
    + now apply k_breaks.
    + apply k_closes; rewrite ?E; cbn [snd]; [assumption | |];
        unfold closeLog; rewrite Hw, Hc;
        destruct (completionCallback m); reflexivity.
    + apply k_passes; rewrite ?E; auto.
    + apply k_closes; rewrite ?E; cbn [snd]; [assumption | |];
        unfold closeLog; rewrite Hw, Hc;
        destruct (completionCallback m); reflexivity.
Qed.




(** Frames that add no text and start no message, all of them handed over
    with more to come, leave an empty accumulator as it is and make no call
    of [onMessage]. *)
Lemma bystanders (between : list payload) :
  forall (m : WebSocketManager) (w : WebSocket) (g : Callback)
         (tail : list payload),
    ws m = Some w -> isConnected m = true -> messageCallback m = Some g ->
    hasContent m = false -> tail <> [] ->
    Forall (fun e => ~ tagIs e "messageStart" /\ contribution e = None)
      between ->
    received (between ++ tail) m = (between ++ tail)%list ->
    received tail m = tail
    /\ fst (receive (between ++ tail) m) = fst (receive tail m)
    /\ messageCalls (snd (receive (between ++ tail) m))
       = messageCalls (snd (receive tail m)).
Proof.
  induction between as [|e rest IH]; intros m w g tail Hw Hc Hg Hh Htail Hall Hrec;
    [cbn [app] in *; tauto|].
  inversion Hall as [|? ? [Hs Hn] Hrest]; subst.
  cbn [app receive received] in *.
  destruct (step_kind e m w g Hw Hc Hg) as [t C E | C Em Hm _ Hcl | C Hcl _ | T | T Hh'];
    try congruence; try contradiction.
  - destruct (onmessage e m) as [m1 l1]; cbn [fst snd] in *. subst m1.
    rewrite Hcl in *. injection Hrec as Hrec.
    destruct (IH m w g tail Hw Hc Hg Hh Htail Hrest Hrec) as (R1 & R2 & R3).
    split; [exact R1|].
    destruct (receive (rest ++ tail) m) as [m2 l2]; cbn [fst snd] in *.
    split; [exact R2|].
    unfold messageCalls in *. now rewrite filter_app, Hm.
  - destruct (onmessage e m) as [m1 l1]; cbn [fst snd] in *.
    rewrite Hcl in *. injection Hrec as Hrec.
    symmetry in Hrec. apply app_eq_nil in Hrec. tauto.
Qed.

(** C2 (break isolation).  On an open socket
    with an [onMessage] callback registered, a break token that finds
    accumulated content makes exactly one call [onMessage(T, false)] with the
    text [T] held before the break and leaves the accumulator empty with
    [shouldCreateNewMessage] set.  The next non-empty delta handed over is
    then reported as [onMessage(u, true)] with [u] the text of that delta
    alone, whatever frames come in between that add no text (info notices,
    empty deltas, further break tokens, payloads that do not parse or have an
    unknown tag), provided none of them is a [messageStart], which clears
    [shouldCreateNewMessage].  On the frames of scenario B the callbacks are,
    in this order, [onMessage("Thinking...", false)],
    [onMessage("Thinking...", false)], [onMessage("Answer", true)] and
    [onComplete()]. *)
Theorem break_isolation (m : WebSocketManager) (w : WebSocket) (g : Callback)
  (u : string) (between : list payload) (start : WebSocketManager)
  (c : Callback) :
  let stream := encode BreakToken :: between ++ [encode (ContentDelta u)] in
  ws m = Some w -> isConnected m = true ->
  messageCallback m = Some g ->
  hasContent m = true ->
  currentMessage m <> "" ->
  u <> "" ->
  Forall (fun e => ~ tagIs e "messageStart" /\ contribution e = None)
    between ->
  received stream m = stream ->
  messageCallback start = Some g ->
  completionCallback start = Some c ->
  onmessage (encode BreakToken) m
  = (withAccumulator "" false true m,
     [CallMessage g (JStr (currentMessage m)) false])
  /\ messageCalls (snd (receive stream m))
     = [CallMessage g (JStr (currentMessage m)) false; CallMessage g (JStr u) true]
  /\ callbacks (snd (deliver (map encode scenarioB) start))
     = [CallMessage g (JStr "Thinking...") false;
        CallMessage g (JStr "Thinking...") false;
        CallMessage g (JStr "Answer") true;
        CallComplete c].
Proof.
  intros stream Hw Hc Hg Hh Ht Hu Hq Hrec Hg' Hc'.
  assert (Hbreak : onmessage (encode BreakToken) m
                   = (withAccumulator "" false true m,
                      [CallMessage g (JStr (currentMessage m)) false])).
  { rewrite on_BreakToken by assumption. now rewrite Hg. }
  split; [exact Hbreak|]. split.
  - subst stream. cbn [receive received] in *. rewrite Hbreak in *.
    cbn [existsb isCloseCall orb] in *. injection Hrec as Hrec.
    set (m1 := withAccumulator "" false true m) in *.
    destruct (bystanders between m1 w g [encode (ContentDelta u)])
      as (_ & _ & R); try assumption;
      try (destruct m; cbn in *; congruence); try discriminate.
    destruct (receive (between ++ [encode (ContentDelta u)]) m1) as [m2 l2].
    cbn [snd] in *. unfold messageCalls in *.
    cbn [app filter isMessageCall]. rewrite R.
    cbn [receive]. rewrite on_ContentDelta by assumption.
    destruct m; cbn in Hg |- *; rewrite Hg; reflexivity.
  - destruct start as [[?|] [|] ? ? ? ? ? ? ? ?]; cbn in Hg', Hc'; subst;
      reflexivity.
Qed.

(** On an open socket a frame either closes the socket, and then makes no
    callback after a call of [onComplete], or makes no call of [onComplete]
    at all. *)
Lemma closes_or_goes_on (event : payload) (m : WebSocketManager)
  (w : WebSocket) :
  ws m = Some w -> isConnected m = true ->
  (existsb isCloseCall (snd (onmessage event m)) = true
   /\ callbacks (afterCompletion (snd (onmessage event m))) = [])
  \/ (existsb isCloseCall (snd (onmessage event m)) = false
      /\ forall rest,
           afterCompletion (snd (onmessage event m) ++ rest)
           = afterCompletion rest).
Proof.
  intros Hw Hc. pose proof (onmessage_transition event m) as T.
  destruct (onmessage event m) as [m1 l1]; cbn [fst snd] in *.
  destruct T;
    destruct m as [[?|] [|] ? [?|] ? [?|] ? ? ? ?]; cbn in *;
    try discriminate;
    first [ left; split; reflexivity
          | right; split; [reflexivity | intros; reflexivity] ].
Qed.

(** C3 (completion is last).  Whatever frames the server sends on the open
    socket of a turn, also after a terminal frame, [onComplete] is called at
    most once and no callback at all is called after it: the frame that calls
    [onComplete] goes on to [close()], which calls [ws.close()], and the
    socket hands no further frame to the handler. *)
Theorem completion_is_last (events : list payload) (m : WebSocketManager)
  (w : WebSocket) :
  ws m = Some w -> isConnected m = true ->
  (List.length (completions (snd (receive events m))) <= 1)%nat
  /\ callbacks (afterCompletion (snd (receive events m))) = [].
Proof.
  intros Hw Hc. split.
  - rewrite receive_deliver. apply completion_at_most_once.
  - revert m Hw Hc. induction events as [|e rest IH]; intros m Hw Hc;
      [reflexivity|].
    cbn [receive].
    destruct (closes_or_goes_on e m w Hw Hc) as [[Hcl Hafter] | [Hcl Hafter]];
      destruct (step_keeps e m) as (K1 & K2 & _);
      destruct (onmessage e m) as [m1 l1]; cbn [fst snd] in *; rewrite Hcl.
    + exact Hafter.
    + specialize (IH m1 ltac:(congruence) ltac:(congruence)).
      destruct (receive rest m1) as [m2 l2]; cbn [snd] in *.
      now rewrite Hafter.
Qed.

End SocketFacts.


(** C2 as the spec words it fails: a [messageStart] between the break and the
    next non-empty delta clears [shouldCreateNewMessage] (lines 135-139), and
    the delta is reported as [onMessage(u, false)]. *)
Lemma start_after_break_clears_the_flag :
  ~ (forall (JS : Coercions) (m : WebSocketManager) (w : WebSocket)
            (g : Callback) (u : string) (between : list payload)
            (start : WebSocketManager) (c : Callback),
       let stream :=
         encode BreakToken :: between ++ [encode (ContentDelta u)] in
       ws m = Some w -> isConnected m = true ->
       messageCallback m = Some g ->
       hasContent m = true ->
       currentMessage m <> "" ->
       u <> "" ->
       Forall (fun e => contribution e = None) between ->
       received stream m = stream ->
       messageCallback start = Some g ->
       completionCallback start = Some c ->
       onmessage (encode BreakToken) m
       = (withAccumulator "" false true m,
          [CallMessage g (JStr (currentMessage m)) false])
       /\ messageCalls (snd (receive stream m))
          = [CallMessage g (JStr (currentMessage m)) false;
             CallMessage g (JStr u) true]
       /\ callbacks (snd (deliver (map encode scenarioB) start))
          = [CallMessage g (JStr "Thinking...") false;
             CallMessage g (JStr "Thinking...") false;
             CallMessage g (JStr "Answer") true;
             CallComplete c]).
Proof.
  intros H.
  set (m := fst (deliver (JS := throwingCoercions)
                   (map encode [MessageStart; ContentDelta "Thinking..."])
                   turn)).
  assert (E : messageCalls
                (snd (receive (JS := throwingCoercions)
                        (encode BreakToken
                           :: [encode MessageStart]
                           ++ [encode (ContentDelta "Answer")]) m))
              = [CallMessage 1 (JStr "Thinking...") false;
                 CallMessage 1 (JStr "Answer") false])
    by (vm_compute; reflexivity).
  assert (U : "Answer" <> "") by discriminate.
  assert (T : currentMessage m <> "") by discriminate.
  assert (Q : Forall (fun e => contribution (JS := throwingCoercions) e = None)
                [encode MessageStart])
    by (apply Forall_cons; [reflexivity | apply Forall_nil]).
  pose proof (H throwingCoercions m Socket 1 "Answer" [encode MessageStart]
                turn 3 eq_refl eq_refl eq_refl eq_refl T U Q eq_refl eq_refl
                eq_refl) as (_ & C & _).
  rewrite E in C. discriminate C.
Qed.

Lemma break_isolation_witness :
  let m := fst (deliver (JS := throwingCoercions)
                  (map encode [MessageStart; ContentDelta "Thinking..."]) turn) in
  let between :=
    [encode (Info "searching"); encode (ContentDelta ""); Unparseable;
     tagged "ping" []; encode BreakToken] in
  currentMessage m = "Thinking..."
  /\ messageCalls
       (snd (receive (JS := throwingCoercions)
               (encode BreakToken :: between ++ [encode (ContentDelta "Answer")])
               m))
     = [CallMessage 1 (JStr "Thinking...") false;
        CallMessage 1 (JStr "Answer") true].
Proof.
  intros m between. split; [reflexivity|].
  refine (proj1 (proj2 (break_isolation (JS := throwingCoercions) m Socket 1
                          "Answer" between turn 3 eq_refl eq_refl eq_refl
                          eq_refl _ _ _ eq_refl eq_refl eq_refl))).
  - discriminate.
  - discriminate.
  - repeat (apply Forall_cons;
            [split; [cbn; intros H; discriminate || exact H | reflexivity]|]).
    apply Forall_nil.
Defined.

Lemma completion_is_last_witness :
  let events :=
    map encode [MessageStart; ContentDelta "Hi"; MessageStop;
                ContentDelta "late"; Info "late"; MessageStop] in
  ws turn = Some Socket
  /\ callbacks (snd (receive (JS := throwingCoercions) events turn))
     = [CallMessage 1 (JStr "Hi") false; CallComplete 3]
  /\ callbacks
       (afterCompletion (snd (receive (JS := throwingCoercions) events turn)))
     = [].
Proof.
  intros events. split; [reflexivity|]. split; [reflexivity|].
  exact (proj2 (completion_is_last (JS := throwingCoercions) events turn
                  Socket eq_refl eq_refl)).
Defined.

(** C10 for frames of any kind fails: a delta whose text is the array holding
    the empty string passes the guard (it is truthy and has length one) and
    adds the empty string, so [hasContent] is true with [currentMessage]
    empty, and the guard of the break token then differs from
    [hasContent]. *)
Lemma array_delta_sets_hasContent_without_text :
  ~ (forall (JS : Coercions) (start m : WebSocketManager),
       freshAccumulator start ->
       reachableByAny start m ->
       (hasContent m = true <-> currentMessage m <> "")
       /\ (shouldCreateNewMessage m = true ->
           currentMessage m = "" /\ hasContent m = false)
       /\ hasContent m && (0 <? String.length (currentMessage m))%nat
          = hasContent m).
Proof.
  intros H.
  set (event := tagged "contentBlockDelta"
                  [("data", JObj [("delta", JObj [("text", JArr [JStr ""])])])]).
  assert (F : freshAccumulator newManager) by (repeat split).
  pose proof (H arraysOfStrings newManager _ F
                (any_frame (JS := arraysOfStrings) newManager newManager event
                   (any_start newManager))) as ((C & _) & _).
  apply C; reflexivity.
Qed.
